(** * Logistic regression on the low-level backend

    A model of the notebook
    [notebooks/8 - Implementing models using the low-level backend.ipynb].

    The notebook builds a symbolic graph with the backend [K] (Theano, as
    its recorded output says), compiles it with [K.function] and drives the
    compiled functions from plain Python and numpy.  The development has
    four layers:

    - [NDArray]: shaped, row-major arrays, as numpy and the backend hold
      them;
    - [Backend]: the part of the backend API the notebook calls: the nodes
      of the symbolic graph, their evaluation on arrays, the checks that
      make a call raise, and [K.function] with its update list;
    - [Numpy]: the numpy calls of the notebook (array creation, the
      comparison, [astype], [mean]);
    - [Notebook]: the cells, under the names the notebook gives them.

    Numbers.  The backend computes in float32.  Tensor values are modelled
    as real numbers ([R]), so rounding is left out and [lr = 0.1] is the
    real 1/10.  The numpy side of the last cells works on exact rationals
    ([Q]): every finite float is a rational, comparisons with [0.5] are
    exact, and the one float that is no number ([nan], the mean of an empty
    array) is kept as a value of its own.  The reals have no [nan]: where
    the backend would compute one, the mean of a batch without rows, the
    evaluation raises, as the compiled training function does on such a
    batch.

    The backend.  The backend is a library the notebook imports, not part
    of the repository.  Its operations are modelled as Keras on Theano
    performs them: shapes are checked when a compiled function runs, an
    operand of lower rank is repeated along the missing leading dimensions,
    and all other dimensions have to agree.

    Differentiation.  [K.gradients] is the backend's automatic
    differentiation.  The notebook only calls it, so the value of a gradient
    node is given by a parameter [autodiff] of the evaluation; what the
    notebook does with the gradients is modelled in full. *)

From Stdlib Require Import List ZArith QArith Reals Lra Lia.
From stdpp Require Import base option list strings gmap.

(** ** Arrays *)

Module NDArray.

(** An array is its shape and its elements in row-major order. *)
Record ndarray (A : Type) : Type := mk { shape : list nat; data : list A }.
Arguments mk {A} shape data.
Arguments shape {A} _.
Arguments data {A} _.

(** Number of elements of an array of shape [sh]. *)
Definition numel (sh : list nat) : nat := fold_right Nat.mul 1%nat sh.

Definition ndim {A} (a : ndarray A) : nat := length (shape a).

(** Every array numpy or the backend hands out has as many elements as
    its shape says. *)
Definition wf {A} (a : ndarray A) : Prop := length (data a) = numel (shape a).

Definition map {A B} (f : A -> B) (a : ndarray A) : ndarray B :=
  mk (shape a) (List.map f (data a)).

Definition full {A} (sh : list nat) (v : A) : ndarray A :=
  mk sh (repeat v (numel sh)).

Definition scalar {A} (v : A) : ndarray A := mk [] [v].

Definition shape_eqb (s1 s2 : list nat) : bool :=
  bool_decide (s1 = s2).

(** [strip_suffix suf sh] is [Some pre] when [sh = pre ++ suf]. *)
Definition strip_suffix (suf sh : list nat) : option (list nat) :=
  let k := (length sh - length suf)%nat in
  if shape_eqb (drop k sh) suf then Some (take k sh) else None.

(** [k] copies of [l], one after the other. *)
Definition tile {A} (k : nat) (l : list A) : list A := concat (repeat l k).

(** Element [(i, j)] of a matrix with [cols] columns. *)
Definition item2 (cols : nat) (l : list R) (i j : nat) : R :=
  nth (i * cols + j) l 0%R.

End NDArray.

Import NDArray.

(** ** Exceptions and results *)

(** What a call into the backend can raise. *)
Inductive exn : Type :=
| ShapeMismatch    (* ValueError: dimensions of the operands do not agree *)
| WrongNdim        (* TypeError: wrong number of dimensions *)
| WrongArity       (* TypeError: wrong number of arguments of a compiled function *)
| NotAPlaceholder  (* TypeError: an input of a compiled function is no placeholder *)
| MissingInput     (* MissingInputError: a placeholder of the graph was not given *)
| NoValue          (* a shared variable without a value *)
| BadUpdate        (* TypeError: the target of an update is no shared variable *)
| NotANumber       (* the mean of no elements: nan, and the call does not return *)
| GradientError.   (* raised by the differentiation itself *)

Inductive result (A : Type) : Type :=
| Ok (a : A)
| Raise (e : exn).
Arguments Ok {A} a.
Arguments Raise {A} e.

#[global] Instance result_ret : MRet result := fun A a => Ok a.
#[global] Instance result_bind : MBind result := fun A B f m =>
  match m with
  | Ok a => f a
  | Raise e => Raise e
  end.

Definition of_option {A} (e : exn) (o : option A) : result A :=
  match o with
  | Some a => Ok a
  | None => Raise e
  end.

(** One step of a computation in [result]: a [bind] on a known result. *)
Ltac run_result := cbn [mbind result_bind of_option].
Tactic Notation "run_result" "in" hyp(H) := cbn [mbind result_bind of_option] in H.

(** ** The backend *)

Module Backend.

(** The value of a tensor: an array of numbers. *)
Abbreviation value := (ndarray R).

(** A node of the symbolic graph.  Placeholders and shared variables are
    named; a placeholder carries the shape it was declared with, [None]
    for a dimension left open. *)
Inductive tensor : Type :=
| K_placeholder (name : string) (shape : list (option nat))
| K_variable (name : string)
| constant (c : R)
| K_dot (a c : tensor)
| add (a c : tensor)
| sub (a c : tensor)
| mul (a c : tensor)
| K_sigmoid (a : tensor)
| K_binary_crossentropy (output target : tensor)
| K_mean (a : tensor)
| gradient (cost wrt : tensor).

(** The shape a placeholder was declared with. *)
Definition declared_shape (t : tensor) : list (option nat) :=
  match t with
  | K_placeholder _ sh => sh
  | _ => []
  end.

(** [K.gradients(loss, variables)]: one gradient node per variable, in
    the order of the list. *)
Definition K_gradients (cost : tensor) (variables : list tensor) : list tensor :=
  List.map (gradient cost) variables.

(** *** Numeric kernels *)

Definition Rsum (l : list R) : R := fold_right Rplus 0%R l.

(** The matrix product.  Only the product of two matrices is modelled,
    which is the one the notebook uses. *)
Definition matmul (a c : value) : result value :=
  match shape a, shape c with
  | [n; k], [k'; m] =>
      if (k =? k')%nat
      then Ok (mk [n; m]
                 (i ← seq 0 n; j ← seq 0 m;
                  [Rsum (List.map (fun l => (item2 k (data a) i l * item2 m (data c) l j)%R)
                                  (seq 0 k))]))
      else Raise ShapeMismatch
  | _, _ => Raise WrongNdim
  end.

(** An elementwise operation of two operands.  The operand of lower rank
    is padded with leading dimensions and repeated along them; the other
    dimensions have to agree exactly (no dimension of a placeholder or of
    a shared variable is declared broadcastable). *)
Definition elemwise2 (f : R -> R -> R) (a c : value) : result value :=
  match strip_suffix (shape c) (shape a) with
  | Some pre => Ok (mk (shape a) (zip_with f (data a) (tile (numel pre) (data c))))
  | None =>
      match strip_suffix (shape a) (shape c) with
      | Some pre => Ok (mk (shape c) (zip_with f (tile (numel pre) (data a)) (data c)))
      | None => Raise ShapeMismatch
      end
  end.

(** The logistic function, in real numbers.  (In float32 it is rounded:
    it reaches 0 and 1 for arguments far from zero, and 0.5 for arguments
    next to zero.) *)
Definition sigmoid (z : R) : R := (1 / (1 + exp (- z)))%R.

(** The fuzz factor of the backend, [_EPSILON = 10e-8]. *)
Definition epsilon : R := (1 / 10000000)%R.

Definition clip (lo hi v : R) : R := Rmax lo (Rmin hi v).

(** Cross-entropy of one prediction [o] against one target [t]; the
    prediction is clipped into [[epsilon, 1 - epsilon]] first. *)
Definition bce (o t : R) : R :=
  let o' := clip epsilon (1 - epsilon) o in
  (- (t * ln o' + (1 - t) * ln (1 - o')))%R.

(** Mean over all elements: a scalar.  Of an array without elements the
    backend's mean is [nan], no number, and the compiled training function
    fails on a batch without rows: there the evaluation raises. *)
Definition mean (a : value) : result value :=
  match data a with
  | [] => Raise NotANumber
  | _ :: _ => Ok (scalar (Rsum (data a) / INR (length (data a)))%R)
  end.

(** *** Evaluation *)

Section Eval.

(** The value of the gradient of [cost] with respect to [wrt], at the
    given inputs and variable values. *)
Variable autodiff :
  tensor -> tensor -> gmap string value -> gmap string value -> result value.

(** [feed] binds the placeholders, [st] holds the shared variables. *)
Fixpoint eval (feed st : gmap string value) (t : tensor) : result value :=
  match t with
  | K_placeholder name _ => of_option MissingInput (feed !! name)
  | K_variable name => of_option NoValue (st !! name)
  | constant c => Ok (scalar c)
  | K_dot a c => va ← eval feed st a; vc ← eval feed st c; matmul va vc
  | add a c => va ← eval feed st a; vc ← eval feed st c; elemwise2 Rplus va vc
  | sub a c => va ← eval feed st a; vc ← eval feed st c; elemwise2 Rminus va vc
  | mul a c => va ← eval feed st a; vc ← eval feed st c; elemwise2 Rmult va vc
  | K_sigmoid a => va ← eval feed st a; Ok (NDArray.map sigmoid va)
  | K_binary_crossentropy output target =>
      vo ← eval feed st output; vt ← eval feed st target; elemwise2 bce vo vt
  | K_mean a => va ← eval feed st a; mean va
  | gradient cost wrt =>
      vc ← eval feed st cost;
      if shape_eqb (shape vc) [] then autodiff cost wrt feed st else Raise WrongNdim
  end.

(** Binding the arguments of a call to the inputs of the compiled
    function: as many arguments as inputs, each of the rank of its
    placeholder. *)
Fixpoint bind_inputs (inputs : list tensor) (args : list value)
  : result (gmap string value) :=
  match inputs, args with
  | [], [] => Ok ∅
  | K_placeholder name sh :: inputs', v :: args' =>
      if (ndim v =? length sh)%nat
      then feed ← bind_inputs inputs' args'; Ok (<[name := v]> feed)
      else Raise WrongNdim
  | _ :: _, _ :: _ => Raise NotAPlaceholder
  | _, _ => Raise WrongArity
  end.

(** The new values of an update list, all computed from the same
    variable values [st]. *)
Fixpoint eval_updates (feed st : gmap string value)
    (updates : list (tensor * tensor)) : result (list (string * value)) :=
  match updates with
  | [] => Ok []
  | (K_variable name, new_p) :: updates' =>
      v ← eval feed st new_p;
      rest ← eval_updates feed st updates';
      Ok ((name, v) :: rest)
  | _ :: _ => Raise BadUpdate
  end.

Definition commit (news : list (string * value)) (st : gmap string value)
  : gmap string value :=
  fold_left (fun s nv => <[nv.1 := nv.2]> s) news st.

(** [K.function(inputs, output, updates=updates)].  A call evaluates
    the output and the new values of the updates on the values the
    variables have when the call starts, then stores the new values,
    and returns the output. *)
Definition K_function (inputs : list tensor) (output : tensor)
    (updates : list (tensor * tensor))
    (args : list value) (st : gmap string value)
  : result (value * gmap string value) :=
  feed ← bind_inputs inputs args;
  out ← eval feed st output;
  news ← eval_updates feed st updates;
  Ok (out, commit news st).

End Eval.

End Backend.

Import Backend.

(** ** The numpy calls of the notebook *)

Module Numpy.

(** A float64 result: a number, or [nan]. *)
Inductive float : Type :=
| Finite (q : Q)
| NaN.

Definition fmul (f : float) (c : Q) : float :=
  match f with
  | Finite q => Finite (q * c)
  | NaN => NaN
  end.

(** [np.zeros(shape)] *)
Definition zeros (sh : list nat) : ndarray R := full sh 0%R.

(** [c * array] *)
Definition times (c : R) (a : ndarray R) : ndarray R := NDArray.map (Rmult c) a.

(** [np.random.randn(rows, cols)], when [cursor] numbers were drawn
    before. *)
Definition random_randn (gauss : nat -> R) (cursor rows cols : nat) : ndarray R :=
  mk [rows; cols] (List.map gauss (seq cursor (rows * cols))).

(** [np.random.randint(low, high, size=sh)]: integers of [[low, high)]. *)
Definition random_randint (ints : nat -> Z) (cursor : nat) (low high : Z)
    (sh : list nat) : ndarray Z :=
  mk sh (List.map (fun k => (low + ints k mod (high - low))%Z) (seq cursor (numel sh))).

Definition Qgtb (p c : Q) : bool := negb (Qle_bool p c).

(** [array > c] *)
Definition greater (a : ndarray Q) (c : Q) : ndarray bool :=
  NDArray.map (fun p => Qgtb p c) a.

(** [array.astype('int')] of a boolean array *)
Definition astype_int (a : ndarray bool) : ndarray Z :=
  NDArray.map (fun t : bool => if t then 1%Z else 0%Z) a.

(** [a == c] for two arrays of one shape.  Comparing arrays of different
    shapes (broadcasting) is not modelled: [None]. *)
Definition equal (a c : ndarray Z) : option (ndarray bool) :=
  if shape_eqb (shape a) (shape c)
  then Some (mk (shape a) (zip_with Z.eqb (data a) (data c)))
  else None.

Definition count_true (l : list bool) : nat := length (List.filter (fun t => t) l).

(** [array.mean()] of a boolean array: the fraction of [True] entries;
    [nan] on an array without elements. *)
Definition mean (a : ndarray bool) : float :=
  match length (data a) with
  | O => NaN
  | S n => Finite (Z.of_nat (count_true (data a)) # Pos.of_succ_nat n)
  end.

(** How an integer array enters a compiled function: as floats. *)
Definition floatX (a : ndarray Z) : value := NDArray.map IZR a.

End Numpy.

Import Numpy.

(** ** The notebook *)

Module Notebook.

(** What a session holds between cells: the values of the shared
    variables and what was printed. *)
Record session : Type := Session {
  vars : gmap string value;
  stdout : list (nat * value)
}.

(** [for i in range(n): body].  An exception of the body ends the loop. *)
Fixpoint for_range {S : Type} (body : nat -> S -> result S) (start n : nat) (s : S)
  : result S :=
  match n with
  | O => Ok s
  | Datatypes.S n' => s' ← body start s; for_range body (Datatypes.S start) n' s'
  end.

(** [x = K.placeholder(shape=(None, 5))], [y = K.placeholder(shape=(None, 1))] *)
Definition x : tensor := K_placeholder "x" [None; Some 5%nat].
Definition y : tensor := K_placeholder "y" [None; Some 1%nat].

(** [W = K.variable(...)], [b = K.variable(...)]: the nodes; their first
    values are in [initial_store]. *)
Definition W : tensor := K_variable "W".
Definition b : tensor := K_variable "b".

(** [y_hat = K.sigmoid(K.dot(x, W) + b)] *)
Definition y_hat : tensor := K_sigmoid (add (K_dot x W) b).

(** [loss = K.mean(K.binary_crossentropy(y_hat, y))] *)
Definition loss : tensor := K_mean (K_binary_crossentropy y_hat y).

Definition params : list tensor := [W; b].
Definition gradients : list tensor := K_gradients loss params.

Definition lr : R := (1 / 10)%R.

(** [updates = []; for p, g in zip([W, b], gradients):
      new_p = p - lr*g; updates.append((p, new_p))] *)
Definition updates : list (tensor * tensor) :=
  fold_left (fun updates pg =>
               let p := pg.1 in
               let g := pg.2 in
               let new_p := sub p (mul (constant lr) g) in
               updates ++ [(p, new_p)])
            (zip [W; b] gradients) [].

Section Cells.

Variable autodiff :
  tensor -> tensor -> gmap string value -> gmap string value -> result value.
(** The random generator of numpy: [gauss k] is the [k]-th number that
    [randn] draws in the session, [ints k] the [k]-th integer that
    [randint] draws before it is brought into its range. *)
Variable gauss : nat -> R.
Variable ints : nat -> Z.

(** The values [W] and [b] are created with:
    [0.01*np.random.randn(5, 1)] and [np.zeros(1)]. *)
Definition W_init : value := times (1 / 100)%R (random_randn gauss 0 5 1).
Definition b_init : value := zeros [1%nat].
Definition initial_store : gmap string value :=
  <["b" := b_init]> (<["W" := W_init]> ∅).

(** [train_fn = K.function([x, y], loss, updates=updates)] *)
Definition train_fn : list value -> gmap string value -> result (value * gmap string value) :=
  K_function autodiff [x; y] loss updates.

(** [X_batch = 2*np.random.randn(16, 5)],
    [y_batch = np.random.randint(0, 2, size=(16,1))] *)
Definition X_batch : ndarray R := times 2%R (random_randn gauss 5 16 5).
Definition y_batch : ndarray Z := random_randint ints 0 0 2 [16%nat; 1%nat].

(** One turn of the training loop:
    [iter_loss = train_fn([X_batch, y_batch]);
     if iteration % 100 == 0: print(...)] *)
Definition training_step (iteration : nat) (s : session) : result session :=
  r ← train_fn [X_batch; floatX y_batch] (vars s);
  let iter_loss := r.1 in
  Ok (Session r.2
        (if (iteration mod 100 =? 0)%nat
         then stdout s ++ [(iteration, iter_loss)]
         else stdout s)).

(** [for iteration in range(1000): ...] *)
Definition training_loop (s : session) : result session :=
  for_range training_step 0 1000 s.

(** [predict = K.function([x], y_hat)] *)
Definition predict : list value -> gmap string value -> result (value * gmap string value) :=
  K_function autodiff [x] y_hat [].

(** [predictions = predict([X_batch])] *)
Definition predictions (s : session) : result (value * session) :=
  r ← predict [X_batch] (vars s);
  Ok (r.1, Session r.2 (stdout s)).

End Cells.

(** [(y_batch == (predictions > 0.5).astype('int')).mean()*100] *)
Definition accuracy (y_batch : ndarray Z) (predictions : ndarray Q) : option float :=
  agree ← equal y_batch (astype_int (greater predictions (1 # 2)));
  Some (fmul (mean agree) 100).

End Notebook.

(** ** Vocabulary of the properties *)

Module Spec.

(** The affine projection of row [i] of a batch [X] of five features:
    [sum_j X[i,j]*W[j,0] + b[0]]. *)
Definition affine (X w bv : value) (i : nat) : R :=
  (Rsum (List.map (fun j => (item2 5 (data X) i j * item2 1 (data w) j 0)%R) (seq 0 5))
   + nth 0 (data bv) 0)%R.

(** The loss of a batch of [N] rows: the mean over the rows of the
    cross-entropy of the prediction against the target. *)
Definition mean_bce (X Y w bv : value) (N : nat) : R :=
  (Rsum (List.map (fun i => bce (sigmoid (affine X w bv i)) (nth i (data Y) 0%R)) (seq 0 N))
   / INR N)%R.

(** One step of gradient descent on the value [p] with gradient [g]:
    [p - 0.1*g], element by element. *)
Definition descend (p g : value) : value :=
  mk (shape p) (zip_with (fun u d => (u - 1 / 10 * d)%R) (data p) (data g)).

(** What the notebook relies on from the differentiation: wherever the
    loss has a value, its gradient with respect to each of the parameters
    [W] and [b] has one too, of the shape of the parameter. *)
Definition gradients_like_params
    (autodiff : tensor -> tensor -> gmap string value -> gmap string value -> result value)
  : Prop :=
  forall (name : string) (feed st : gmap string value) (c p : value),
    In (K_variable name) Notebook.params ->
    eval autodiff feed st Notebook.loss = Ok c ->
    st !! name = Some p -> wf p ->
    exists g, autodiff Notebook.loss (K_variable name) feed st = Ok g
              /\ shape g = shape p /\ wf g.

(** An array shape fits a declared shape: the same rank, and the same
    size in every dimension that was not left open. *)
Definition fits (sh : list nat) (declared : list (option nat)) : Prop :=
  Forall2 (fun d o => match o with Some k => d = k | None => True end) sh declared.

(** The shapes the variables are created with. *)
Definition param_shapes (st : gmap string value) : Prop :=
  exists w bv,
    st !! "W" = Some w /\ shape w = [5%nat; 1%nat] /\ wf w /\
    st !! "b" = Some bv /\ shape bv = [1%nat] /\ wf bv.

(** A label of a two-class problem. *)
Definition binary (label : Z) : Prop := label = 0%Z \/ label = 1%Z.

(** The label is the positive class ([1]) exactly when the probability
    is above one half. *)
Definition agrees (label : Z) (probability : Q) : bool :=
  Bool.eqb (label =? 1)%Z (Qgtb probability (1 # 2)).

(** The number of positions where label and thresholded prediction agree. *)
Definition agreements (y_batch : ndarray Z) (predictions : ndarray Q) : nat :=
  length (List.filter (fun lp => agrees lp.1 lp.2) (zip (data y_batch) (data predictions))).

End Spec.

Import Spec.

(** ** Concrete data for examples *)

Module Sample.

(** A differentiation that meets [gradients_like_params], for the
    examples: it answers zeros of the shape of the variable. *)
Definition flat_gradient (cost wrt : tensor) (feed st : gmap string value) : result value :=
  match wrt with
  | K_variable name => p ← of_option NoValue (st !! name); Ok (full (shape p) 0%R)
  | _ => Raise GradientError
  end.

(** Fixed draws for the random generator. *)
Definition gauss (k : nat) : R := INR k.
Definition ints (k : nat) : Z := Z.of_nat k.

Definition X_batch : value := Notebook.X_batch gauss.
Definition y_batch : ndarray Z := Notebook.y_batch ints.
Definition store : gmap string value := Notebook.initial_store gauss.
Definition feed : gmap string value := <["x" := X_batch]> (<["y" := floatX y_batch]> ∅).

(** A store in which [W] was set to an array of four rows. *)
Definition bad_store : gmap string value := <["W" := zeros [4%nat; 1%nat]]> store.

(** Four labels and four predicted probabilities. *)
Definition labels4 : ndarray Z := mk [4%nat; 1%nat] [1; 0; 1; 1]%Z.
Definition probabilities4 : ndarray Q := mk [4%nat; 1%nat] [9 # 10; 2 # 10; 4 # 10; 7 # 10]%Q.

(** Arrays of shape (0,1), as [y_batch[:0]] gives. *)
Definition no_labels : ndarray Z := mk [0%nat; 1%nat] [].
Definition no_probabilities : ndarray Q := mk [0%nat; 1%nat] [].

End Sample.

(** ** Checks of the model on small inputs *)

Example updates_unrolled :
  Notebook.updates =
    [(Notebook.W, sub Notebook.W (mul (constant Notebook.lr) (gradient Notebook.loss Notebook.W)));
     (Notebook.b, sub Notebook.b (mul (constant Notebook.lr) (gradient Notebook.loss Notebook.b)))].
Proof. reflexivity. Qed.

Example y_batch_labels :
  data Sample.y_batch = [0; 1; 0; 1; 0; 1; 0; 1; 0; 1; 0; 1; 0; 1; 0; 1]%Z.
Proof. reflexivity. Qed.

Example accuracy_three_of_four :
  Notebook.accuracy Sample.labels4 Sample.probabilities4 = Some (Finite (300 # 4)).
Proof. reflexivity. Qed.

Example accuracy_broadcast_unmodelled :
  Notebook.accuracy Sample.labels4 Sample.no_probabilities = None.
Proof. reflexivity. Qed.

Example matmul_2x2_2x1 :
  matmul (mk [2%nat; 2%nat] [1; 2; 3; 4]%R) (mk [2%nat; 1%nat] [1; 1]%R)
  = Ok (mk [2%nat; 1%nat] [1 * 1 + (2 * 1 + 0); 3 * 1 + (4 * 1 + 0)]%R).
Proof. reflexivity. Qed.

Example matmul_inner_mismatch :
  matmul (mk [2%nat; 2%nat] [1; 2; 3; 4]%R) (mk [3%nat; 1%nat] [1; 1; 1]%R)
  = Raise ShapeMismatch.
Proof. reflexivity. Qed.

Example add_row_bias :
  elemwise2 Rplus (mk [2%nat; 2%nat] [1; 2; 3; 4]%R) (mk [2%nat] [10; 20]%R)
  = Ok (mk [2%nat; 2%nat] [1 + 10; 2 + 20; 3 + 10; 4 + 20]%R).
Proof. reflexivity. Qed.

Example add_unequal_columns :
  elemwise2 Rplus (mk [2%nat; 2%nat] [1; 2; 3; 4]%R) (mk [1%nat] [10]%R)
  = Raise ShapeMismatch.
Proof. reflexivity. Qed.

Example train_fn_on_bad_store :
  Notebook.train_fn Sample.flat_gradient [Sample.X_batch; floatX Sample.y_batch] Sample.bad_store
  = Raise ShapeMismatch.
Proof. reflexivity. Qed.

Example train_fn_wrong_rank :
  Notebook.train_fn Sample.flat_gradient [Sample.X_batch; zeros [16%nat]] Sample.store
  = Raise WrongNdim.
Proof. reflexivity. Qed.

(** ** Lemmas on arrays and kernels *)

Section Kernels.

Lemma bind_singleton_seq {A} (g : nat -> nat -> A) (l : list nat) :
  (i ← l; j ← seq 0 1; [g i j]) = List.map (fun i => g i 0%nat) l.
Proof.
  induction l as [|i l IH]; [reflexivity|].
  cbn. f_equal; exact IH.
Qed.

Lemma matmul_column (a c : value) (n k : nat) :
  shape a = [n; k] -> shape c = [k; 1%nat] ->
  matmul a c =
    Ok (mk [n; 1%nat]
          (List.map (fun i => Rsum (List.map (fun l => (item2 k (data a) i l * item2 1 (data c) l 0)%R)
                                             (seq 0 k)))
                    (seq 0 n))).
Proof.
  intros Ha Hc. unfold matmul. rewrite Ha, Hc, Nat.eqb_refl.
  rewrite bind_singleton_seq. reflexivity.
Qed.

Lemma tile_singleton {A} (k : nat) (v : A) : tile k [v] = repeat v k.
Proof. induction k as [|k IH]; [reflexivity|]. unfold tile in *. cbn. f_equal. exact IH. Qed.

Lemma zip_with_repeat {A B C} (f : A -> B -> C) (l : list A) (v : B) (k : nat) :
  (length l <= k)%nat ->
  zip_with f l (repeat v k) = List.map (fun u => f u v) l.
Proof.
  revert k. induction l as [|u l IH]; intros k Hk; [reflexivity|].
  destruct k as [|k]; [cbn in Hk; lia|].
  cbn. f_equal. apply IH. cbn in Hk. lia.
Qed.

Lemma elemwise2_column_bias (f : R -> R -> R) (a c : value) (n : nat) (c0 : R) :
  shape a = [n; 1%nat] -> length (data a) = n ->
  shape c = [1%nat] -> data c = [c0] ->
  elemwise2 f a c = Ok (mk [n; 1%nat] (List.map (fun u => f u c0) (data a))).
Proof.
  intros Ha Hla Hc Hdc. unfold elemwise2. rewrite Ha, Hc, Hdc.
  change (strip_suffix [1%nat] [n; 1%nat]) with (Some [n]).
  unfold numel, fold_right. rewrite Nat.mul_1_r.
  rewrite tile_singleton, zip_with_repeat by lia. reflexivity.
Qed.

Lemma wf_vector1 (c : value) :
  shape c = [1%nat] -> wf c -> data c = [nth 0 (data c) 0%R].
Proof.
  unfold wf. intros -> Hl. cbn in Hl.
  destruct (data c) as [|c0 [|c1 l]]; cbn in Hl; try lia. reflexivity.
Qed.

Lemma zip_with_repeat_l {A B C} (f : A -> B -> C) (u : A) (l : list B) (k : nat) :
  (length l <= k)%nat ->
  zip_with f (repeat u k) l = List.map (f u) l.
Proof.
  revert k. induction l as [|v l IH]; intros k Hk.
  - destruct k; reflexivity.
  - destruct k as [|k]; [cbn in Hk; lia|].
    cbn. f_equal. apply IH. cbn in Hk. lia.
Qed.

Lemma zip_with_map_r {A B B' C} (f : A -> B' -> C) (g : B -> B') (l : list A) (k : list B) :
  zip_with f l (List.map g k) = zip_with (fun u v => f u (g v)) l k.
Proof.
  revert k. induction l as [|u l IH]; intros [|v k]; cbn; try reflexivity.
  f_equal. apply IH.
Qed.

Lemma shape_eqb_refl (sh : list nat) : shape_eqb sh sh = true.
Proof. unfold shape_eqb. apply bool_decide_eq_true_2. reflexivity. Qed.

Lemma shape_eqb_eq (s1 s2 : list nat) : shape_eqb s1 s2 = true -> s1 = s2.
Proof. unfold shape_eqb. apply bool_decide_eq_true_1. Qed.

Lemma strip_suffix_refl (sh : list nat) : strip_suffix sh sh = Some [].
Proof.
  unfold strip_suffix. rewrite Nat.sub_diag. cbn [drop take].
  rewrite shape_eqb_refl. reflexivity.
Qed.

Lemma tile_one {A} (l : list A) : tile 1 l = l.
Proof. unfold tile. cbn. apply app_nil_r. Qed.

(** Operands of one shape: element by element. *)
Lemma elemwise2_same_shape (f : R -> R -> R) (a c : value) :
  shape a = shape c ->
  elemwise2 f a c = Ok (mk (shape a) (zip_with f (data a) (data c))).
Proof.
  intros H. unfold elemwise2. rewrite H, strip_suffix_refl.
  cbn [numel fold_right]. rewrite tile_one. reflexivity.
Qed.

(** A Python number on the left: it meets every element. *)
Lemma elemwise2_scalar_l (f : R -> R -> R) (c : R) (g : value) :
  wf g ->
  elemwise2 f (scalar c) g = Ok (mk (shape g) (List.map (f c) (data g))).
Proof.
  unfold wf. intros Hwf. unfold elemwise2, strip_suffix. cbn [scalar shape data length].
  rewrite Nat.sub_0_l, Nat.sub_0_r. cbn [drop take].
  destruct (shape_eqb [] (shape g)) eqn:E.
  - apply shape_eqb_eq in E. rewrite <- E in *. cbn in Hwf.
    destruct (data g) as [|g0 [|g1 l]]; cbn in Hwf; try lia. reflexivity.
  - rewrite drop_all, firstn_all, shape_eqb_refl.
    rewrite tile_singleton, zip_with_repeat_l by lia. reflexivity.
Qed.

End Kernels.

Section Logistic.

Variable autodiff :
  tensor -> tensor -> gmap string value -> gmap string value -> result value.

(** The value of the affine projection [K.dot(x, W) + b] on a batch of
    [N] rows. *)
Lemma eval_affine (feed st : gmap string value) (X w bv : value) (N : nat) :
  feed !! "x" = Some X -> st !! "W" = Some w -> st !! "b" = Some bv ->
  shape X = [N; 5%nat] -> shape w = [5%nat; 1%nat] ->
  shape bv = [1%nat] -> wf bv ->
  eval autodiff feed st (add (K_dot Notebook.x Notebook.W) Notebook.b) =
    Ok (mk [N; 1%nat] (List.map (affine X w bv) (seq 0 N))).
Proof.
  intros Hx HW Hb HsX Hsw Hsb Hwf.
  unfold Notebook.x, Notebook.W, Notebook.b. cbn [eval].
  rewrite Hx, HW, Hb. run_result.
  rewrite (matmul_column X w N 5 HsX Hsw). run_result.
  rewrite (elemwise2_column_bias Rplus _ bv N (nth 0 (data bv) 0%R));
    [| reflexivity | cbn [data]; rewrite length_map, length_seq; reflexivity
     | exact Hsb | exact (wf_vector1 bv Hsb Hwf)].
  cbn [data]. rewrite List.map_map. reflexivity.
Qed.

(** The value of [y_hat] on a batch of [N] rows. *)
Lemma eval_y_hat (feed st : gmap string value) (X w bv : value) (N : nat) :
  feed !! "x" = Some X -> st !! "W" = Some w -> st !! "b" = Some bv ->
  shape X = [N; 5%nat] -> shape w = [5%nat; 1%nat] ->
  shape bv = [1%nat] -> wf bv ->
  eval autodiff feed st Notebook.y_hat =
    Ok (mk [N; 1%nat]
          (List.map (fun i => (1 / (1 + exp (- affine X w bv i)))%R) (seq 0 N))).
Proof.
  intros Hx HW Hb HsX Hsw Hsb Hwf.
  change (eval autodiff feed st Notebook.y_hat)
    with (va ← eval autodiff feed st (add (K_dot Notebook.x Notebook.W) Notebook.b);
          Ok (NDArray.map sigmoid va)).
  rewrite (eval_affine feed st X w bv N Hx HW Hb HsX Hsw Hsb Hwf).
  run_result. unfold NDArray.map. cbn [shape data].
  rewrite List.map_map. reflexivity.
Qed.

End Logistic.

Section Training.

Variable autodiff :
  tensor -> tensor -> gmap string value -> gmap string value -> result value.

Lemma eval_mean_scalar (feed st : gmap string value) (a : tensor) (l : value) :
  eval autodiff feed st (K_mean a) = Ok l -> exists r, l = scalar r.
Proof.
  cbn [eval].
  destruct (eval autodiff feed st a) as [va|e]; cbn [mbind result_bind]; [|discriminate].
  unfold Backend.mean. destruct (data va); intros H; inversion H.
  eexists. reflexivity.
Qed.

Lemma eval_loss_scalar (feed st : gmap string value) (l : value) :
  eval autodiff feed st Notebook.loss = Ok l -> exists r, l = scalar r.
Proof. apply eval_mean_scalar. Qed.

Lemma eval_new_p (feed st : gmap string value) (cost : tensor) (name : string)
    (pv g l : value) :
  st !! name = Some pv ->
  eval autodiff feed st cost = Ok l -> shape l = [] ->
  autodiff cost (K_variable name) feed st = Ok g ->
  shape g = shape pv -> wf g ->
  eval autodiff feed st
    (sub (K_variable name) (mul (constant Notebook.lr) (gradient cost (K_variable name))))
  = Ok (descend pv g).
Proof.
  intros Hp Hl Hsl Hg Hsg Hwf. cbn [eval]. rewrite Hp, Hl. run_result.
  rewrite Hsl, shape_eqb_refl, Hg.
  run_result.
  rewrite elemwise2_scalar_l by exact Hwf. run_result.
  rewrite elemwise2_same_shape by (cbn [shape]; congruence).
  cbn [shape data]. rewrite zip_with_map_r. reflexivity.
Qed.

(** One call of [train_fn]. *)
Lemma train_fn_call
    (X Y w bv l gW gb : value) (st : gmap string value) :
  let feed : gmap string value := <["x" := X]> (<["y" := Y]> ∅) in
  ndim X = 2%nat -> ndim Y = 2%nat ->
  st !! "W" = Some w -> st !! "b" = Some bv ->
  eval autodiff feed st Notebook.loss = Ok l ->
  autodiff Notebook.loss Notebook.W feed st = Ok gW -> shape gW = shape w -> wf gW ->
  autodiff Notebook.loss Notebook.b feed st = Ok gb -> shape gb = shape bv -> wf gb ->
  Notebook.train_fn autodiff [X; Y] st
  = Ok (l, <["b" := descend bv gb]> (<["W" := descend w gW]> st)).
Proof.
  intros feed HX HY HW Hb Hl HgW HsW HwW Hgb Hsb Hwb.
  unfold Notebook.train_fn, K_function.
  unfold Notebook.x, Notebook.y. cbn [bind_inputs]. rewrite HX, HY.
  cbn [length Nat.eqb mbind result_bind]. fold Notebook.x Notebook.y. fold feed.
  rewrite Hl. run_result.
  destruct (eval_loss_scalar feed st l Hl) as [r Hr].
  change Notebook.updates with
    [(Notebook.W, sub Notebook.W (mul (constant Notebook.lr) (gradient Notebook.loss Notebook.W)));
     (Notebook.b, sub Notebook.b (mul (constant Notebook.lr) (gradient Notebook.loss Notebook.b)))].
  unfold Notebook.W, Notebook.b in *. cbn [eval_updates].
  rewrite (eval_new_p feed st Notebook.loss "W" w gW l HW Hl ltac:(subst l; reflexivity) HgW HsW HwW).
  rewrite (eval_new_p feed st Notebook.loss "b" bv gb l Hb Hl ltac:(subst l; reflexivity) Hgb Hsb Hwb).
  reflexivity.
Qed.

End Training.

Section Shapes.

Variable autodiff :
  tensor -> tensor -> gmap string value -> gmap string value -> result value.

Lemma zip_with_map_seq {A B} (f : R -> A -> B) (g : nat -> R) (d : A) (l : list A) (s n : nat) :
  length l = n ->
  zip_with f (List.map g (seq s n)) l
  = List.map (fun i => f (g i) (nth (i - s) l d)) (seq s n).
Proof.
  revert s l. induction n as [|n IH]; intros s l Hl; [reflexivity|].
  destruct l as [|v l]; [discriminate|]. cbn [seq List.map zip_with].
  rewrite Nat.sub_diag. cbn [nth]. f_equal.
  rewrite (IH (S s) l) by (cbn in Hl; lia).
  apply List.map_ext_in. intros i Hi. apply in_seq in Hi.
  replace (i - s)%nat with (S (i - S s)) by lia. reflexivity.
Qed.

Lemma eval_loss_value (feed st : gmap string value) (X Y w bv : value) (N : nat) :
  (0 < N)%nat ->
  feed !! "x" = Some X -> feed !! "y" = Some Y ->
  st !! "W" = Some w -> st !! "b" = Some bv ->
  shape X = [N; 5%nat] -> shape Y = [N; 1%nat] -> wf Y ->
  shape w = [5%nat; 1%nat] -> shape bv = [1%nat] -> wf bv ->
  eval autodiff feed st Notebook.loss = Ok (scalar (mean_bce X Y w bv N)).
Proof.
  intros HN Hx Hy HW Hb HsX HsY HwY Hsw Hsb Hwb.
  unfold Notebook.loss. cbn [eval].
  rewrite (eval_y_hat autodiff feed st X w bv N Hx HW Hb HsX Hsw Hsb Hwb).
  unfold Notebook.y. cbn [eval]. rewrite Hy. run_result.
  rewrite elemwise2_same_shape by (cbn [shape]; congruence).
  cbn [mbind result_bind shape data]. unfold Backend.mean, mean_bce. cbn [data].
  assert (HlY : length (data Y) = N).
  { unfold wf in HwY. rewrite HsY in HwY. cbn in HwY. lia. }
  rewrite (zip_with_map_seq bce _ 0%R (data Y) 0 N HlY).
  destruct N as [|n]; [lia|].
  change (seq 0 (Datatypes.S n)) with (0%nat :: seq 1 n) at 1. cbn [List.map].
  change (0%nat :: seq 1 n) with (seq 0 (Datatypes.S n)).
  change (bce (1 / (1 + exp (- affine X w bv 0))) (nth (0 - 0) (data Y) 0%R)
          :: List.map (fun i => bce (1 / (1 + exp (- affine X w bv i)))
                                    (nth (i - 0) (data Y) 0%R)) (seq 1 n))
    with (List.map (fun i => bce (1 / (1 + exp (- affine X w bv i)))
                                 (nth (i - 0) (data Y) 0%R)) (seq 0 (Datatypes.S n))).
  rewrite length_map, length_seq. do 4 f_equal.
  apply List.map_ext. intros i. rewrite Nat.sub_0_r. reflexivity.
Qed.

Lemma descend_shape (p g : value) :
  shape g = shape p -> wf p -> wf g ->
  shape (descend p g) = shape p /\ wf (descend p g).
Proof.
  unfold wf, descend. intros Hs Hp Hg. cbn [shape data]. split; [reflexivity|].
  rewrite length_zip_with, Hp, Hg, Hs. lia.
Qed.

Lemma train_fn_total (X Y : value) (st : gmap string value) (N : nat) :
  (0 < N)%nat ->
  gradients_like_params autodiff ->
  shape X = [N; 5%nat] -> shape Y = [N; 1%nat] -> wf Y ->
  forall w bv,
    st !! "W" = Some w -> shape w = [5%nat; 1%nat] -> wf w ->
    st !! "b" = Some bv -> shape bv = [1%nat] -> wf bv ->
    exists st', Notebook.train_fn autodiff [X; Y] st = Ok (scalar (mean_bce X Y w bv N), st')
                /\ param_shapes st'.
Proof.
  intros HN Hgrad HsX HsY HwY w bv HW Hsw Hww Hb Hsb Hwb.
  set (feed := <["x" := X]> (<["y" := Y]> ∅) : gmap string value).
  assert (Hl : eval autodiff feed st Notebook.loss = Ok (scalar (mean_bce X Y w bv N))).
  { apply eval_loss_value; try assumption; reflexivity. }
  destruct (Hgrad "W" feed st _ w (or_introl eq_refl) Hl HW Hww)
    as (gW & HgW & HsgW & HwgW).
  destruct (Hgrad "b" feed st _ bv (or_intror (or_introl eq_refl)) Hl Hb Hwb)
    as (gb & Hgb & Hsgb & Hwgb).
  eexists. split.
  - apply (train_fn_call autodiff X Y w bv _ gW gb st); try assumption.
    + unfold ndim. rewrite HsX. reflexivity.
    + unfold ndim. rewrite HsY. reflexivity.
  - destruct (descend_shape w gW HsgW Hww HwgW) as [H1 H2].
    destruct (descend_shape bv gb Hsgb Hwb Hwgb) as [H3 H4].
    exists (descend w gW), (descend bv gb).
    rewrite lookup_insert_ne by discriminate.
    rewrite !lookup_insert_eq.
    repeat split; try assumption; congruence.
Qed.

End Shapes.

Section Loops.

Variable autodiff :
  tensor -> tensor -> gmap string value -> gmap string value -> result value.
Variable gauss : nat -> R.
Variable ints : nat -> Z.

Lemma for_range_raise {S : Type} (body : nat -> S -> result S) (e : exn) (k m : nat) :
  forall (start : nat) (s sk : S),
    Notebook.for_range body start k s = Ok sk ->
    body (start + k)%nat sk = Raise e ->
    Notebook.for_range body start (k + Datatypes.S m) s = Raise e.
Proof.
  induction k as [|k IH]; intros start s sk Hk He.
  - cbn in Hk. inversion Hk; subst sk. cbn [Nat.add Notebook.for_range].
    rewrite Nat.add_0_r in He. rewrite He. reflexivity.
  - cbn [Notebook.for_range] in Hk. cbn [Nat.add Notebook.for_range].
    destruct (body start s) as [s1|e1]; cbn [mbind result_bind] in *; [|discriminate].
    apply (IH (Datatypes.S start) s1 sk Hk).
    replace (Datatypes.S start + k)%nat with (start + Datatypes.S k)%nat by lia. exact He.
Qed.

Lemma X_batch_shape :
  shape (Notebook.X_batch gauss) = [16%nat; 5%nat] /\ wf (Notebook.X_batch gauss).
Proof. split; reflexivity. Qed.

Lemma y_batch_shape :
  shape (Notebook.y_batch ints) = [16%nat; 1%nat] /\ wf (Notebook.y_batch ints).
Proof. split; reflexivity. Qed.

Lemma floatX_shape (a : ndarray Z) :
  shape (floatX a) = shape a /\ (wf a -> wf (floatX a)).
Proof.
  split; [reflexivity|]. unfold wf, floatX, NDArray.map. cbn [shape data].
  rewrite length_map. trivial.
Qed.

Lemma initial_store_shapes : param_shapes (Notebook.initial_store gauss).
Proof.
  exists (Notebook.W_init gauss), Notebook.b_init.
  repeat split; reflexivity.
Qed.

Lemma training_step_total (iteration : nat) (s : Notebook.session) :
  gradients_like_params autodiff -> param_shapes (Notebook.vars s) ->
  exists s', Notebook.training_step autodiff gauss ints iteration s = Ok s'
             /\ param_shapes (Notebook.vars s').
Proof.
  intros Hgrad (w & bv & HW & Hsw & Hww & Hb & Hsb & Hwb).
  destruct (train_fn_total autodiff (Notebook.X_batch gauss) (floatX (Notebook.y_batch ints))
              (Notebook.vars s) 16 (Nat.lt_0_succ 15) Hgrad eq_refl eq_refl eq_refl
              w bv HW Hsw Hww Hb Hsb Hwb) as (st' & Hcall & Hshapes).
  unfold Notebook.training_step. rewrite Hcall. run_result.
  eexists. split; [reflexivity|]. exact Hshapes.
Qed.

Lemma for_range_training_total (n : nat) :
  gradients_like_params autodiff ->
  forall (start : nat) (s : Notebook.session),
    param_shapes (Notebook.vars s) ->
    exists s', Notebook.for_range (Notebook.training_step autodiff gauss ints) start n s = Ok s'
               /\ param_shapes (Notebook.vars s').
Proof.
  intros Hgrad. induction n as [|n IH]; intros start s Hs.
  - exists s. split; [reflexivity | exact Hs].
  - cbn [Notebook.for_range].
    destruct (training_step_total start s Hgrad Hs) as (s1 & Hstep & Hs1).
    rewrite Hstep. run_result. apply IH. exact Hs1.
Qed.

Lemma predict_call (args : list value) (st : gmap string value) :
  Notebook.predict autodiff args st
  = (feed ← bind_inputs [Notebook.x] args;
     out ← eval autodiff feed st Notebook.y_hat;
     Ok (out, st)).
Proof.
  unfold Notebook.predict, K_function.
  destruct (bind_inputs [Notebook.x] args) as [feed|e]; cbn [mbind result_bind]; [|reflexivity].
  destruct (eval autodiff feed st Notebook.y_hat) as [out|e]; reflexivity.
Qed.

Lemma predict_total (X : value) (st : gmap string value) (N : nat) :
  shape X = [N; 5%nat] -> param_shapes st ->
  exists p, Notebook.predict autodiff [X] st = Ok (p, st) /\ shape p = [N; 1%nat].
Proof.
  intros HsX (w & bv & HW & Hsw & Hww & Hb & Hsb & Hwb).
  rewrite predict_call. unfold Notebook.x at 1. cbn [bind_inputs].
  unfold ndim. rewrite HsX. cbn [length Nat.eqb mbind result_bind].
  rewrite (eval_y_hat autodiff _ st X w bv N (lookup_insert_eq _ _ _) HW Hb HsX Hsw Hsb Hwb).
  run_result. eexists. split; reflexivity.
Qed.

End Loops.

Section Accuracy.

Local Open Scope Q_scope.

Lemma count_true_le (l : list bool) : (count_true l <= length l)%nat.
Proof.
  unfold count_true. induction l as [|t l IH]; [reflexivity|].
  cbn. destruct t; cbn; lia.
Qed.

Lemma count_true_agreements (ly : list Z) (lp : list Q) :
  Forall binary ly ->
  count_true (zip_with Z.eqb ly
                (List.map (fun t : bool => if t then 1%Z else 0%Z)
                          (List.map (fun p => Qgtb p (1 # 2)) lp)))
  = length (List.filter (fun lp => agrees lp.1 lp.2) (zip ly lp)).
Proof.
  unfold count_true. intros H. revert lp.
  induction H as [|l ly Hl Hly IH]; intros [|p lp]; try reflexivity.
  cbn [List.map zip_with zip List.filter fst snd].
  assert (E : (l =? (if Qgtb p (1 # 2) then 1 else 0))%Z = agrees l p).
  { unfold agrees. destruct Hl as [-> | ->]; destruct (Qgtb p (1 # 2)); reflexivity. }
  rewrite E. destruct (agrees l p); cbn [length]; rewrite IH; reflexivity.
Qed.

Lemma accuracy_value (y_batch : ndarray Z) (predictions : ndarray Q) (n : nat) :
  shape y_batch = shape predictions ->
  length (data y_batch) = Datatypes.S n -> length (data predictions) = Datatypes.S n ->
  Forall binary (data y_batch) ->
  Notebook.accuracy y_batch predictions
  = Some (Finite ((Z.of_nat (agreements y_batch predictions) # Pos.of_succ_nat n) * 100)).
Proof.
  intros Hs Hly Hlp Hbin. unfold Notebook.accuracy, equal.
  cbn [astype_int greater NDArray.map shape data]. rewrite Hs, shape_eqb_refl.
  cbn [mbind option_bind]. unfold Numpy.mean. cbn [data].
  rewrite length_zip_with, !length_map, Hly, Hlp, Nat.min_id.
  rewrite count_true_agreements by exact Hbin. reflexivity.
Qed.

Lemma agreements_le (y_batch : ndarray Z) (predictions : ndarray Q) :
  (agreements y_batch predictions <= length (data y_batch))%nat.
Proof.
  unfold agreements.
  etransitivity; [apply List.filter_length_le|].
  rewrite length_zip. lia.
Qed.

Lemma percent_bounds (c n : nat) :
  (c <= Datatypes.S n)%nat ->
  let q := (Z.of_nat c # Pos.of_succ_nat n) * 100 in
  0 <= q /\ q <= 100 /\
  q == 100 * (inject_Z (Z.of_nat c) / inject_Z (Z.of_nat (Datatypes.S n))).
Proof.
  intros Hc q. subst q. repeat split.
  - unfold Qle, Qmult. cbn. lia.
  - unfold Qle, Qmult. cbn. lia.
  - rewrite (Qmake_Qdiv (Z.of_nat c) (Pos.of_succ_nat n)).
    change (Z.pos (Pos.of_succ_nat n)) with (Z.of_nat (Datatypes.S n)).
    apply Qmult_comm.
Qed.

End Accuracy.

(** ** The properties of the notebook *)

Lemma flat_gradients_like_params : gradients_like_params Sample.flat_gradient.
Proof.
  intros name feed st c p _ _ Hp Hwf.
  exists (full (shape p) 0%R). unfold Sample.flat_gradient. rewrite Hp.
  repeat split. unfold wf, full. cbn [shape data]. apply repeat_length.
Qed.

Lemma sample_loss :
  eval Sample.flat_gradient Sample.feed Sample.store Notebook.loss
  = Ok (scalar (mean_bce Sample.X_batch (floatX Sample.y_batch)
                  (Notebook.W_init Sample.gauss) Notebook.b_init 16)).
Proof. apply eval_loss_value; try reflexivity. apply Nat.lt_0_succ. Qed.

(** C1. On every batch [X] of shape (N,5), with [W] of shape (5,1) and [b]
    of length 1, the value of the graph node [y_hat] is the (N,1) array
    whose row [i] is [1 / (1 + e^-(sum_j X[i,j]*W[j,0] + b[0]))]: the
    logistic function of the affine projection of the input. *)
Theorem y_hat_is_logistic_regression
    (autodiff : tensor -> tensor -> gmap string value -> gmap string value -> result value)
    (feed st : gmap string value) (X w bv : value) (N : nat) :
  feed !! "x" = Some X -> st !! "W" = Some w -> st !! "b" = Some bv ->
  shape X = [N; 5%nat] -> shape w = [5%nat; 1%nat] ->
  shape bv = [1%nat] -> wf bv ->
  eval autodiff feed st Notebook.y_hat =
    Ok (mk [N; 1%nat]
          (List.map (fun i => (1 / (1 + exp (- affine X w bv i)))%R) (seq 0 N))).
Proof. apply eval_y_hat. Qed.

Lemma y_hat_is_logistic_regression_witness :
  eval Sample.flat_gradient Sample.feed Sample.store Notebook.y_hat =
    Ok (mk [16%nat; 1%nat]
          (List.map (fun i => (1 / (1 + exp (- affine Sample.X_batch
                                                (Notebook.W_init Sample.gauss)
                                                Notebook.b_init i)))%R)
                    (seq 0 16))).
Proof.
  apply (y_hat_is_logistic_regression Sample.flat_gradient Sample.feed Sample.store
           Sample.X_batch (Notebook.W_init Sample.gauss) Notebook.b_init 16);
    reflexivity.
Defined.



(** C3. A call [train_fn([X, Y])] returns the loss at the values [W] and
    [b] have when the call starts, and leaves [W] and [b] replaced by
    their gradient-descent steps; both gradients are the ones at the
    values before the call, and each variable is stored once. *)
Theorem train_fn_returns_loss_then_updates
    (autodiff : tensor -> tensor -> gmap string value -> gmap string value -> result value)
    (X Y w bv l gW gb : value) (st : gmap string value) :
  let feed : gmap string value := <["x" := X]> (<["y" := Y]> ∅) in
  ndim X = 2%nat -> ndim Y = 2%nat ->
  st !! "W" = Some w -> st !! "b" = Some bv ->
  eval autodiff feed st Notebook.loss = Ok l ->
  autodiff Notebook.loss Notebook.W feed st = Ok gW -> shape gW = shape w -> wf gW ->
  autodiff Notebook.loss Notebook.b feed st = Ok gb -> shape gb = shape bv -> wf gb ->
  Notebook.train_fn autodiff [X; Y] st
  = Ok (l, <["b" := descend bv gb]> (<["W" := descend w gW]> st)).
Proof. apply train_fn_call. Qed.

Lemma train_fn_returns_loss_then_updates_witness :
  Notebook.train_fn Sample.flat_gradient [Sample.X_batch; floatX Sample.y_batch] Sample.store
  = Ok (scalar (mean_bce Sample.X_batch (floatX Sample.y_batch)
                  (Notebook.W_init Sample.gauss) Notebook.b_init 16),
        <["b" := descend Notebook.b_init (full [1%nat] 0%R)]>
          (<["W" := descend (Notebook.W_init Sample.gauss) (full [5%nat; 1%nat] 0%R)]>
             Sample.store)).
Proof.
  apply (train_fn_returns_loss_then_updates Sample.flat_gradient
           Sample.X_batch (floatX Sample.y_batch)
           (Notebook.W_init Sample.gauss) Notebook.b_init _
           (full [5%nat; 1%nat] 0%R) (full [1%nat] 0%R) Sample.store
           eq_refl eq_refl eq_refl eq_refl sample_loss
           eq_refl eq_refl eq_refl eq_refl eq_refl eq_refl).
Defined.




(** C6. The notebook handles no exception: when a call of [train_fn] in
    the training loop raises, at whatever turn, the loop raises that same
    exception; when the call of [predict] raises, the cell that computes
    [predictions] raises that same exception. *)
Theorem framework_exceptions_propagate
    (autodiff : tensor -> tensor -> gmap string value -> gmap string value -> result value)
    (gauss : nat -> R) (ints : nat -> Z) :
  (forall (k : nat) (s sk : Notebook.session) (e : exn),
      (k < 1000)%nat ->
      Notebook.for_range (Notebook.training_step autodiff gauss ints) 0 k s = Ok sk ->
      Notebook.train_fn autodiff [Notebook.X_batch gauss; floatX (Notebook.y_batch ints)]
        (Notebook.vars sk) = Raise e ->
      Notebook.training_loop autodiff gauss ints s = Raise e) /\
  (forall (s : Notebook.session) (e : exn),
      Notebook.predict autodiff [Notebook.X_batch gauss] (Notebook.vars s) = Raise e ->
      Notebook.predictions autodiff gauss s = Raise e).
Proof.
  split.
  - intros k s sk e Hk Hloop He. unfold Notebook.training_loop.
    replace 1000%nat with (k + Datatypes.S (999 - k))%nat by lia.
    apply (for_range_raise _ e k (999 - k) 0 s sk Hloop).
    unfold Notebook.training_step. cbn [Nat.add]. rewrite He. reflexivity.
  - intros s e He. unfold Notebook.predictions. rewrite He. reflexivity.
Qed.

Lemma framework_exceptions_propagate_witness :
  Notebook.training_loop Sample.flat_gradient Sample.gauss Sample.ints
    (Notebook.Session Sample.bad_store [])
  = Raise ShapeMismatch.
Proof.
  apply (proj1 (framework_exceptions_propagate Sample.flat_gradient Sample.gauss Sample.ints)
           0%nat (Notebook.Session Sample.bad_store [])
           (Notebook.Session Sample.bad_store []) ShapeMismatch).
  - apply Nat.lt_0_succ.
  - reflexivity.
  - reflexivity.
Defined.

Lemma fits_two (sh : list nat) (k : nat) :
  fits sh [None; Some k] -> exists N, sh = [N; k].
Proof.
  unfold fits. intros H.
  inversion H as [|d o sh1 l1 _ H1]; subst.
  inversion H1 as [|d2 o2 sh2 l2 Hd H2]; subst.
  inversion H2; subst. exists d. reflexivity.
Qed.

(** C7. The shapes fit together.  The generated data has the shapes
    (16,5) and (16,1), which fit the declared shapes of [x] and [y]; the
    variables are created with the shapes (5,1) and (1,); on every batch
    that fits the declared shape (N,5) the projection [K.dot(x, W) + b] has
    the shape (N,1) of a target of as many rows; and on the notebook's own
    data no call raises: the training loop runs, whatever the number of
    turns, keeps the shapes of [W] and [b], and the prediction that follows
    it returns an array of shape (16,1).  (Building the graph checks no
    shape at all: the nodes are plain terms.) *)
Theorem shapes_are_consistent
    (autodiff : tensor -> tensor -> gmap string value -> gmap string value -> result value)
    (gauss : nat -> R) (ints : nat -> Z) :
  gradients_like_params autodiff ->
  (shape (Notebook.X_batch gauss) = [16%nat; 5%nat] /\ wf (Notebook.X_batch gauss) /\
   fits (shape (Notebook.X_batch gauss)) (declared_shape Notebook.x)) /\
  (shape (Notebook.y_batch ints) = [16%nat; 1%nat] /\ wf (Notebook.y_batch ints) /\
   fits (shape (Notebook.y_batch ints)) (declared_shape Notebook.y)) /\
  param_shapes (Notebook.initial_store gauss) /\
  (forall (X Y : value) (feed st : gmap string value),
      feed !! "x" = Some X ->
      fits (shape X) (declared_shape Notebook.x) ->
      fits (shape Y) (declared_shape Notebook.y) ->
      hd 0%nat (shape X) = hd 0%nat (shape Y) ->
      param_shapes st ->
      exists v, eval autodiff feed st (add (K_dot Notebook.x Notebook.W) Notebook.b) = Ok v
                /\ shape v = shape Y) /\
  (forall n : nat,
      exists s,
        Notebook.for_range (Notebook.training_step autodiff gauss ints) 0 n
          (Notebook.Session (Notebook.initial_store gauss) []) = Ok s /\
        param_shapes (Notebook.vars s)) /\
  (exists s,
      Notebook.training_loop autodiff gauss ints
        (Notebook.Session (Notebook.initial_store gauss) []) = Ok s /\
      param_shapes (Notebook.vars s) /\
      exists p, Notebook.predictions autodiff gauss s = Ok (p, s)
                /\ shape p = [16%nat; 1%nat]).
Proof.
  intros Hgrad.
  split; [split; [reflexivity|]; split; [reflexivity | repeat constructor]|].
  split; [split; [reflexivity|]; split; [reflexivity | repeat constructor]|].
  split; [apply initial_store_shapes|]. split; [|split].
  - intros X Y feed st Hx HfX HfY Hrows (w & bv & HW & Hsw & Hww & Hb & Hsb & Hwb).
    destruct (fits_two _ _ HfX) as [N HsX]. destruct (fits_two _ _ HfY) as [M HsY].
    rewrite HsX, HsY in Hrows. cbn in Hrows. subst M.
    eexists. split.
    + apply (eval_affine autodiff feed st X w bv N Hx HW Hb HsX Hsw Hsb Hwb).
    + rewrite HsY. reflexivity.
  - intros n.
    apply (for_range_training_total autodiff gauss ints n Hgrad 0
             (Notebook.Session (Notebook.initial_store gauss) [])
             (initial_store_shapes gauss)).
  - destruct (for_range_training_total autodiff gauss ints 1000 Hgrad 0
                (Notebook.Session (Notebook.initial_store gauss) [])
                (initial_store_shapes gauss)) as (s & Hloop & Hs).
    exists s. split; [exact Hloop|]. split; [exact Hs|].
    destruct (predict_total autodiff (Notebook.X_batch gauss) (Notebook.vars s) 16 eq_refl Hs)
      as (p & Hp & Hsp).
    exists p. split; [|exact Hsp].
    unfold Notebook.predictions. rewrite Hp. destruct s; reflexivity.
Qed.

Lemma shapes_are_consistent_witness :
  exists s,
    Notebook.training_loop Sample.flat_gradient Sample.gauss Sample.ints
      (Notebook.Session Sample.store []) = Ok s /\
    param_shapes (Notebook.vars s).
Proof.
  destruct (shapes_are_consistent Sample.flat_gradient Sample.gauss Sample.ints
              flat_gradients_like_params) as (_ & _ & _ & _ & _ & s & Hloop & Hs & _).
  exists s. split; [exact Hloop | exact Hs].
Defined.

(** C8. [predict] has no effect on the model: a call that returns leaves
    every shared variable, so [W] and [b], as it was, and the same call
    made again on the state it leaves returns the same predictions. *)
Theorem predict_has_no_side_effect
    (autodiff : tensor -> tensor -> gmap string value -> gmap string value -> result value)
    (args : list value) (st st' : gmap string value) (p : value) :
  Notebook.predict autodiff args st = Ok (p, st') ->
  st' = st /\
  st' !! "W" = st !! "W" /\ st' !! "b" = st !! "b" /\
  Notebook.predict autodiff args st' = Ok (p, st').
Proof.
  intros H. assert (E : st' = st).
  { rewrite predict_call in H.
    destruct (bind_inputs [Notebook.x] args) as [feed|e]; run_result in H;
      [|discriminate].
    destruct (eval autodiff feed st Notebook.y_hat) as [out|e]; run_result in H;
      [|discriminate].
    inversion H. reflexivity. }
  subst st'. repeat split. exact H.
Qed.

Lemma predict_has_no_side_effect_witness :
  exists p,
    Notebook.predict Sample.flat_gradient [Sample.X_batch] Sample.store = Ok (p, Sample.store) /\
    Sample.store !! "W" = Some (Notebook.W_init Sample.gauss) /\
    shape p = [16%nat; 1%nat].
Proof.
  destruct (predict_total Sample.flat_gradient Sample.X_batch Sample.store 16 eq_refl
              (initial_store_shapes Sample.gauss)) as (p & Hp & Hsp).
  exists p.
  destruct (predict_has_no_side_effect Sample.flat_gradient [Sample.X_batch]
              Sample.store Sample.store p Hp) as (_ & _ & _ & Hagain).
  split; [exact Hagain|]. split; [reflexivity | exact Hsp].
Defined.

(** C9 (amended). For every 0/1 label array and every array of
    probabilities of the same shape that have at least one element, the
    accuracy is a number between 0 and 100, and it is 100 times the
    fraction of the positions where the thresholded prediction (positive
    class exactly when the probability is above 0.5) agrees with the
    label. *)
Theorem accuracy_is_percentage_of_agreement
    (y_batch : ndarray Z) (predictions : ndarray Q) :
  shape y_batch = shape predictions -> wf y_batch -> wf predictions ->
  numel (shape y_batch) <> 0%nat ->
  Forall binary (data y_batch) ->
  exists q : Q,
    Notebook.accuracy y_batch predictions = Some (Finite q) /\
    (0 <= q)%Q /\ (q <= 100)%Q /\
    (q == 100 * (inject_Z (Z.of_nat (agreements y_batch predictions))
                 / inject_Z (Z.of_nat (numel (shape y_batch)))))%Q.
Proof.
  unfold wf. intros Hs Hwy Hwp Hne Hbin.
  destruct (numel (shape y_batch)) as [|n] eqn:En; [contradiction|].
  rewrite <- Hs, En in Hwp.
  eexists. split; [apply (accuracy_value y_batch predictions n Hs Hwy Hwp Hbin)|].
  apply percent_bounds. rewrite <- Hwy. apply agreements_le.
Qed.

Lemma accuracy_is_percentage_of_agreement_witness :
  exists q : Q,
    Notebook.accuracy Sample.labels4 Sample.probabilities4 = Some (Finite q) /\
    (0 <= q)%Q /\ (q <= 100)%Q /\
    (q == 100 * (inject_Z (Z.of_nat (agreements Sample.labels4 Sample.probabilities4))
                 / inject_Z (Z.of_nat (numel (shape Sample.labels4)))))%Q.
Proof.
  apply (accuracy_is_percentage_of_agreement Sample.labels4 Sample.probabilities4).
  - reflexivity.
  - reflexivity.
  - reflexivity.
  - discriminate.
  - repeat constructor; (left; reflexivity) || (right; reflexivity).
Defined.

(** C9, as first stated, fails on arrays without elements: two arrays of
    shape (0,1) are a 0/1 label array and a probability array of the same
    shape, and their accuracy is [nan], no number between 0 and 100. *)
Lemma accuracy_of_no_examples_is_nan :
  shape Sample.no_labels = shape Sample.no_probabilities /\
  wf Sample.no_labels /\ wf Sample.no_probabilities /\
  Forall binary (data Sample.no_labels) /\
  Notebook.accuracy Sample.no_labels Sample.no_probabilities = Some NaN /\
  ~ (exists q : Q,
        Notebook.accuracy Sample.no_labels Sample.no_probabilities = Some (Finite q) /\
        (0 <= q)%Q /\ (q <= 100)%Q).
Proof.
  repeat split; try reflexivity.
  - constructor.
  - intros (q & H & _). discriminate H.
Qed.

(** ** Further properties of the notebook *)

(** *** The predictions *)


(** What [predict] returns on a batch of [N] rows. *)
Lemma predict_value
    (autodiff : tensor -> tensor -> gmap string value -> gmap string value -> result value)
    (X w bv : value) (st : gmap string value) (N : nat) :
  shape X = [N; 5%nat] ->
  st !! "W" = Some w -> shape w = [5%nat; 1%nat] ->
  st !! "b" = Some bv -> shape bv = [1%nat] -> wf bv ->
  Notebook.predict autodiff [X] st
  = Ok (mk [N; 1%nat] (List.map (fun i => sigmoid (affine X w bv i)) (seq 0 N)), st).
Proof.
  intros HsX HW Hsw Hb Hsb Hwb.
  rewrite predict_call. unfold Notebook.x at 1. cbn [bind_inputs].
  unfold ndim. rewrite HsX. cbn [length Nat.eqb mbind result_bind].
  rewrite (eval_y_hat autodiff _ st X w bv N (lookup_insert_eq _ _ _) HW Hb HsX Hsw Hsb Hwb).
  reflexivity.
Qed.



(** *** Training calls *)

(** What a returning call of [train_fn] went through. *)
Lemma train_fn_inv
    (autodiff : tensor -> tensor -> gmap string value -> gmap string value -> result value)
    (args : list value) (st st' : gmap string value) (l : value) :
  Notebook.train_fn autodiff args st = Ok (l, st') ->
  exists (feed : gmap string value) (nW nb : value),
    bind_inputs [Notebook.x; Notebook.y] args = Ok feed /\
    eval autodiff feed st Notebook.loss = Ok l /\
    st' = <["b" := nb]> (<["W" := nW]> st).
Proof.
  unfold Notebook.train_fn, K_function. intros H.
  destruct (bind_inputs [Notebook.x; Notebook.y] args) as [feed|e] eqn:Hbind;
    run_result in H; [|discriminate].
  destruct (eval autodiff feed st Notebook.loss) as [l0|e] eqn:Hl; run_result in H;
    [|discriminate].
  change Notebook.updates with
    [(K_variable "W",
      sub Notebook.W (mul (constant Notebook.lr) (gradient Notebook.loss Notebook.W)));
     (K_variable "b",
      sub Notebook.b (mul (constant Notebook.lr) (gradient Notebook.loss Notebook.b)))] in H.
  cbn [eval_updates] in H.
  destruct (eval autodiff feed st
              (sub Notebook.W (mul (constant Notebook.lr) (gradient Notebook.loss Notebook.W))))
    as [nW|e]; run_result in H; [|discriminate].
  destruct (eval autodiff feed st
              (sub Notebook.b (mul (constant Notebook.lr) (gradient Notebook.loss Notebook.b))))
    as [nb|e]; run_result in H; [|discriminate].
  inversion H; subst. exists feed, nW, nb. repeat split. exact Hl.
Qed.

(** X3. A training call writes [W] and [b] and nothing else: every other
    shared variable of the session has, after a call that returns, the
    value it had before, and [W] and [b] still have values. *)
Theorem train_fn_writes_only_W_and_b
    (autodiff : tensor -> tensor -> gmap string value -> gmap string value -> result value)
    (args : list value) (st st' : gmap string value) (l : value) :
  Notebook.train_fn autodiff args st = Ok (l, st') ->
  (forall name : string, name <> "W" -> name <> "b" -> st' !! name = st !! name) /\
  is_Some (st' !! "W") /\ is_Some (st' !! "b").
Proof.
  intros H. destruct (train_fn_inv autodiff args st st' l H) as (feed & nW & nb & _ & _ & ->).
  split; [|split].
  - intros name HnW Hnb.
    rewrite lookup_insert_ne by congruence. rewrite lookup_insert_ne by congruence.
    reflexivity.
  - rewrite lookup_insert_ne by discriminate. rewrite lookup_insert_eq. eexists; reflexivity.
  - rewrite lookup_insert_eq. eexists; reflexivity.
Qed.

Lemma train_fn_writes_only_W_and_b_witness :
  exists (l : value) (st' : gmap string value),
    Notebook.train_fn Sample.flat_gradient [Sample.X_batch; floatX Sample.y_batch]
      (<["steps" := zeros []]> Sample.store) = Ok (l, st') /\
    st' !! "steps" = Some (zeros []).
Proof.
  assert (HW : (<["steps" := zeros []]> Sample.store : gmap string value) !! "W"
               = Some (Notebook.W_init Sample.gauss)).
  { rewrite lookup_insert_ne by discriminate. reflexivity. }
  assert (Hb : (<["steps" := zeros []]> Sample.store : gmap string value) !! "b"
               = Some Notebook.b_init).
  { rewrite lookup_insert_ne by discriminate. reflexivity. }
  destruct (train_fn_total Sample.flat_gradient Sample.X_batch (floatX Sample.y_batch)
              (<["steps" := zeros []]> Sample.store) 16 (Nat.lt_0_succ 15)
              flat_gradients_like_params eq_refl eq_refl eq_refl
              (Notebook.W_init Sample.gauss) Notebook.b_init
              HW eq_refl eq_refl Hb eq_refl eq_refl) as (st' & Hcall & _).
  eexists. exists st'. split; [exact Hcall|].
  destruct (train_fn_writes_only_W_and_b Sample.flat_gradient _ _ st' _ Hcall) as (Hframe & _).
  rewrite (Hframe "steps") by discriminate. apply lookup_insert_eq.
Defined.

Lemma zip_with_descend_zero (lp lg : list R) :
  length lp = length lg -> Forall (fun d => d = 0%R) lg ->
  zip_with (fun u d => (u - 1 / 10 * d)%R) lp lg = lp.
Proof.
  revert lg. induction lp as [|u lp IH]; intros [|d lg] Hlen Hz; try discriminate;
    [reflexivity|].
  inversion Hz; subst. cbn. f_equal; [lra|]. apply IH; [|assumption].
  cbn in Hlen. lia.
Qed.

Lemma descend_zero (p g : value) :
  shape g = shape p -> wf p -> wf g -> Forall (fun d => d = 0%R) (data g) ->
  descend p g = p.
Proof.
  unfold wf, descend. intros Hs Hp Hg Hz. destruct p as [sh dp]. cbn [shape data] in *.
  f_equal. apply zip_with_descend_zero; [congruence | exact Hz].
Qed.

(** X4. A stationary point stays: when the gradients of the loss with
    respect to [W] and to [b] are zero in every component, a training call
    returns the loss and leaves the session exactly as it was. *)
Theorem zero_gradient_is_a_fixed_point
    (autodiff : tensor -> tensor -> gmap string value -> gmap string value -> result value)
    (X Y w bv l gW gb : value) (st : gmap string value) :
  let feed : gmap string value := <["x" := X]> (<["y" := Y]> ∅) in
  ndim X = 2%nat -> ndim Y = 2%nat ->
  st !! "W" = Some w -> wf w -> st !! "b" = Some bv -> wf bv ->
  eval autodiff feed st Notebook.loss = Ok l ->
  autodiff Notebook.loss Notebook.W feed st = Ok gW -> shape gW = shape w -> wf gW ->
  autodiff Notebook.loss Notebook.b feed st = Ok gb -> shape gb = shape bv -> wf gb ->
  Forall (fun d => d = 0%R) (data gW) -> Forall (fun d => d = 0%R) (data gb) ->
  Notebook.train_fn autodiff [X; Y] st = Ok (l, st).
Proof.
  intros feed HX HY HW Hww Hb Hwb Hl HgW HsW HwW Hgb Hsb Hwgb HzW Hzb.
  rewrite (train_fn_call autodiff X Y w bv l gW gb st HX HY HW Hb Hl HgW HsW HwW Hgb Hsb Hwgb).
  rewrite (descend_zero w gW HsW Hww HwW HzW), (descend_zero bv gb Hsb Hwb Hwgb Hzb).
  rewrite (insert_id st "W" w HW), (insert_id st "b" bv Hb). reflexivity.
Qed.

Lemma zero_gradient_is_a_fixed_point_witness :
  Notebook.train_fn Sample.flat_gradient [Sample.X_batch; floatX Sample.y_batch] Sample.store
  = Ok (scalar (mean_bce Sample.X_batch (floatX Sample.y_batch)
                  (Notebook.W_init Sample.gauss) Notebook.b_init 16),
        Sample.store).
Proof.
  apply (zero_gradient_is_a_fixed_point Sample.flat_gradient
           Sample.X_batch (floatX Sample.y_batch)
           (Notebook.W_init Sample.gauss) Notebook.b_init _
           (full [5%nat; 1%nat] 0%R) (full [1%nat] 0%R) Sample.store
           eq_refl eq_refl eq_refl eq_refl eq_refl eq_refl sample_loss
           eq_refl eq_refl eq_refl eq_refl eq_refl eq_refl);
    repeat constructor.
Defined.

(** X5. Training then predicting: a prediction made after a training call
    is the logistic function of the projection with the updated parameters
    [W - 0.1*gW] and [b - 0.1*gb], not with the ones the call started
    from. *)
Theorem predict_after_train_uses_updated_parameters
    (autodiff : tensor -> tensor -> gmap string value -> gmap string value -> result value)
    (X Y X' w bv l gW gb : value) (st : gmap string value) (M : nat) :
  let feed : gmap string value := <["x" := X]> (<["y" := Y]> ∅) in
  ndim X = 2%nat -> ndim Y = 2%nat ->
  st !! "W" = Some w -> shape w = [5%nat; 1%nat] -> wf w ->
  st !! "b" = Some bv -> shape bv = [1%nat] -> wf bv ->
  eval autodiff feed st Notebook.loss = Ok l ->
  autodiff Notebook.loss Notebook.W feed st = Ok gW -> shape gW = shape w -> wf gW ->
  autodiff Notebook.loss Notebook.b feed st = Ok gb -> shape gb = shape bv -> wf gb ->
  shape X' = [M; 5%nat] ->
  exists st' : gmap string value,
    Notebook.train_fn autodiff [X; Y] st = Ok (l, st') /\
    Notebook.predict autodiff [X'] st'
    = Ok (mk [M; 1%nat]
            (List.map (fun i => sigmoid (affine X' (descend w gW) (descend bv gb) i))
                      (seq 0 M)),
          st').
Proof.
  intros feed HX HY HW Hsw Hww Hb Hsb Hwb Hl HgW HsW HwW Hgb Hsgb Hwgb HsX'.
  eexists. split.
  - apply (train_fn_call autodiff X Y w bv l gW gb st HX HY HW Hb Hl HgW HsW HwW Hgb Hsgb Hwgb).
  - destruct (descend_shape w gW HsW Hww HwW) as [H1 H2].
    destruct (descend_shape bv gb Hsgb Hwb Hwgb) as [H3 H4].
    apply (predict_value autodiff X' (descend w gW) (descend bv gb) _ M HsX').
    + rewrite lookup_insert_ne by discriminate. apply lookup_insert_eq.
    + rewrite H1. exact Hsw.
    + apply lookup_insert_eq.
    + rewrite H3. exact Hsb.
    + exact H4.
Qed.

Lemma predict_after_train_uses_updated_parameters_witness :
  exists st' : gmap string value,
    Notebook.train_fn Sample.flat_gradient [Sample.X_batch; floatX Sample.y_batch] Sample.store
    = Ok (scalar (mean_bce Sample.X_batch (floatX Sample.y_batch)
                    (Notebook.W_init Sample.gauss) Notebook.b_init 16), st') /\
    Notebook.predict Sample.flat_gradient [Sample.X_batch] st'
    = Ok (mk [16%nat; 1%nat]
            (List.map (fun i => sigmoid (affine Sample.X_batch
                                           (descend (Notebook.W_init Sample.gauss)
                                                    (full [5%nat; 1%nat] 0%R))
                                           (descend Notebook.b_init (full [1%nat] 0%R)) i))
                      (seq 0 16)),
          st').
Proof.
  apply (predict_after_train_uses_updated_parameters Sample.flat_gradient
           Sample.X_batch (floatX Sample.y_batch) Sample.X_batch
           (Notebook.W_init Sample.gauss) Notebook.b_init _
           (full [5%nat; 1%nat] 0%R) (full [1%nat] 0%R) Sample.store 16
           eq_refl eq_refl eq_refl eq_refl eq_refl eq_refl eq_refl eq_refl sample_loss
           eq_refl eq_refl eq_refl eq_refl eq_refl eq_refl eq_refl).
Defined.

(** X6. The loss a training call reports is the cross-entropy of the very
    predictions [predict] returns on the same batch before the call: the
    mean over the rows of the cross-entropy between that prediction and the
    target.  (On a batch without rows there is no mean and no call of
    [train_fn] returns.) *)
Theorem loss_is_cross_entropy_of_predictions
    (autodiff : tensor -> tensor -> gmap string value -> gmap string value -> result value)
    (X Y w bv : value) (st : gmap string value) (N : nat) :
  shape X = [N; 5%nat] -> shape Y = [N; 1%nat] -> wf Y ->
  st !! "W" = Some w -> shape w = [5%nat; 1%nat] ->
  st !! "b" = Some bv -> shape bv = [1%nat] -> wf bv ->
  exists p : value,
    Notebook.predict autodiff [X] st = Ok (p, st) /\
    ((0 < N)%nat ->
     eval autodiff (<["x" := X]> (<["y" := Y]> ∅)) st Notebook.loss
     = Ok (mk [] [(Rsum (zip_with bce (data p) (data Y)) / INR N)%R])) /\
    forall (l : value) (st' : gmap string value),
      Notebook.train_fn autodiff [X; Y] st = Ok (l, st') ->
      l = mk [] [(Rsum (zip_with bce (data p) (data Y)) / INR N)%R].
Proof.
  intros HsX HsY HwY HW Hsw Hb Hsb Hwb.
  assert (HlY : length (data Y) = N).
  { unfold wf in HwY. rewrite HsY in HwY. cbn in HwY. lia. }
  assert (Hloss : (0 < N)%nat ->
                  eval autodiff (<["x" := X]> (<["y" := Y]> ∅)) st Notebook.loss
                  = Ok (mk [] [(Rsum (zip_with bce
                                        (List.map (fun i => sigmoid (affine X w bv i)) (seq 0 N))
                                        (data Y)) / INR N)%R])).
  { intros HN.
    rewrite (eval_loss_value autodiff _ st X Y w bv N) by (try assumption; reflexivity).
    unfold scalar, mean_bce. do 4 f_equal.
    rewrite (zip_with_map_seq bce _ 0%R (data Y) 0 N HlY). f_equal.
    apply List.map_ext. intros i. rewrite Nat.sub_0_r. reflexivity. }
  eexists. split; [apply (predict_value autodiff X w bv st N HsX HW Hsw Hb Hsb Hwb)|].
  cbn [data]. split; [exact Hloss|].
  intros l st' Hcall.
  destruct (train_fn_inv autodiff [X; Y] st st' l Hcall) as (feed & nW & nb & Hbind & Hl & _).
  unfold Notebook.x, Notebook.y in Hbind. cbn [bind_inputs] in Hbind.
  unfold ndim in Hbind. rewrite HsX, HsY in Hbind. cbn in Hbind.
  inversion Hbind; subst feed.
  destruct N as [|n].
  - exfalso. revert Hl. unfold Notebook.loss. cbn [eval].
    rewrite (eval_y_hat autodiff _ st X w bv 0 (lookup_insert_eq _ _ _) HW Hb HsX Hsw Hsb Hwb).
    unfold Notebook.y. cbn [eval].
    rewrite lookup_insert_ne by discriminate. rewrite lookup_insert_eq. run_result.
    rewrite elemwise2_same_shape by (cbn [shape]; congruence).
    cbn. discriminate.
  - rewrite (Hloss (Nat.lt_0_succ n)) in Hl. inversion Hl. reflexivity.
Qed.

Lemma loss_is_cross_entropy_of_predictions_witness :
  exists p : value,
    Notebook.predict Sample.flat_gradient [Sample.X_batch] Sample.store = Ok (p, Sample.store) /\
    eval Sample.flat_gradient Sample.feed Sample.store Notebook.loss
    = Ok (mk [] [(Rsum (zip_with bce (data p) (data (floatX Sample.y_batch))) / INR 16)%R]).
Proof.
  destruct (loss_is_cross_entropy_of_predictions Sample.flat_gradient
              Sample.X_batch (floatX Sample.y_batch)
              (Notebook.W_init Sample.gauss) Notebook.b_init Sample.store 16
              eq_refl eq_refl eq_refl eq_refl eq_refl eq_refl eq_refl eq_refl)
    as (p & Hp & Hl & _).
  exists p. split; [exact Hp | exact (Hl (Nat.lt_0_succ 15))].
Defined.

(** *** Calls that raise *)

Lemma shape_eqb_neq (s1 s2 : list nat) : s1 <> s2 -> shape_eqb s1 s2 = false.
Proof. unfold shape_eqb. apply bool_decide_eq_false_2. Qed.

(** X7. A batch of the wrong width is refused: with the parameters as the
    notebook creates them, a matrix that has not five columns makes
    [predict] raise a shape error, and makes [train_fn] raise it too,
    whatever the targets. *)
Theorem wrong_number_of_features_raises
    (autodiff : tensor -> tensor -> gmap string value -> gmap string value -> result value)
    (X Y : value) (st : gmap string value) (N k : nat) :
  shape X = [N; k] -> k <> 5%nat -> ndim Y = 2%nat -> param_shapes st ->
  Notebook.predict autodiff [X] st = Raise ShapeMismatch /\
  Notebook.train_fn autodiff [X; Y] st = Raise ShapeMismatch.
Proof.
  intros HsX Hk HY (w & bv & HW & Hsw & _ & Hb & _).
  assert (Hmat : matmul X w = Raise ShapeMismatch).
  { unfold matmul. rewrite HsX, Hsw.
    destruct (k =? 5)%nat eqn:E; [apply Nat.eqb_eq in E; contradiction | reflexivity]. }
  assert (Hyhat : forall feed : gmap string value,
             feed !! "x" = Some X ->
             eval autodiff feed st Notebook.y_hat = Raise ShapeMismatch).
  { intros feed Hx. unfold Notebook.y_hat, Notebook.x, Notebook.W, Notebook.b. cbn [eval].
    rewrite Hx, HW. run_result. rewrite Hmat. reflexivity. }
  split.
  - rewrite predict_call. unfold Notebook.x at 1. cbn [bind_inputs].
    unfold ndim. rewrite HsX. cbn [length Nat.eqb mbind result_bind].
    rewrite (Hyhat _ (lookup_insert_eq _ _ _)). reflexivity.
  - unfold Notebook.train_fn, K_function. unfold Notebook.x at 1, Notebook.y at 1.
    cbn [bind_inputs]. rewrite HY. unfold ndim. rewrite HsX.
    cbn [length Nat.eqb mbind result_bind].
    unfold Notebook.loss. cbn [eval].
    rewrite (Hyhat _ (lookup_insert_eq _ _ _)). reflexivity.
Qed.

Lemma wrong_number_of_features_raises_witness :
  Notebook.predict Sample.flat_gradient [zeros [16%nat; 4%nat]] Sample.store
  = Raise ShapeMismatch /\
  Notebook.train_fn Sample.flat_gradient [zeros [16%nat; 4%nat]; floatX Sample.y_batch]
    Sample.store = Raise ShapeMismatch.
Proof.
  apply (wrong_number_of_features_raises Sample.flat_gradient
           (zeros [16%nat; 4%nat]) (floatX Sample.y_batch) Sample.store 16 4 eq_refl).
  - discriminate.
  - reflexivity.
  - apply initial_store_shapes.
Defined.

(** X8. Inputs and targets have to have the same number of rows: a call
    of [train_fn] with N rows of inputs and M rows of targets, M different
    from N, raises a shape error (a single target row is not repeated over
    the batch). *)
Theorem rows_of_targets_must_match
    (autodiff : tensor -> tensor -> gmap string value -> gmap string value -> result value)
    (X Y : value) (st : gmap string value) (N M : nat) :
  shape X = [N; 5%nat] -> shape Y = [M; 1%nat] -> M <> N -> param_shapes st ->
  Notebook.train_fn autodiff [X; Y] st = Raise ShapeMismatch.
Proof.
  intros HsX HsY HMN (w & bv & HW & Hsw & _ & Hb & Hsb & Hwb).
  unfold Notebook.train_fn, K_function. unfold Notebook.x at 1, Notebook.y at 1.
  cbn [bind_inputs]. unfold ndim. rewrite HsX, HsY.
  cbn [length Nat.eqb mbind result_bind].
  unfold Notebook.loss. cbn [eval].
  rewrite (eval_y_hat autodiff _ st X w bv N (lookup_insert_eq _ _ _) HW Hb HsX Hsw Hsb Hwb).
  unfold Notebook.y. cbn [eval].
  rewrite lookup_insert_ne by discriminate. rewrite lookup_insert_eq. run_result.
  unfold elemwise2, strip_suffix. cbn [shape]. rewrite HsY.
  cbn [length Nat.sub drop].
  rewrite (shape_eqb_neq [N; 1%nat] [M; 1%nat]) by congruence.
  rewrite (shape_eqb_neq [M; 1%nat] [N; 1%nat]) by congruence.
  reflexivity.
Qed.

Lemma rows_of_targets_must_match_witness :
  Notebook.train_fn Sample.flat_gradient [Sample.X_batch; zeros [1%nat; 1%nat]] Sample.store
  = Raise ShapeMismatch.
Proof.
  apply (rows_of_targets_must_match Sample.flat_gradient
           Sample.X_batch (zeros [1%nat; 1%nat]) Sample.store 16 1 eq_refl eq_refl).
  - discriminate.
  - apply initial_store_shapes.
Defined.

(** *** The loss *)







Lemma y_batch_binary (ints : nat -> Z) : Forall binary (data (Notebook.y_batch ints)).
Proof.
  apply List.Forall_forall. intros v Hv. unfold Notebook.y_batch, random_randint in Hv.
  cbn [data] in Hv. apply in_map_iff in Hv. destruct Hv as (k & <- & _).
  pose proof (Z.mod_pos_bound (ints k) (2 - 0) ltac:(lia)) as Hm.
  unfold binary. lia.
Qed.



(** *** The training loop *)

Lemma for_range_training_stdout
    (autodiff : tensor -> tensor -> gmap string value -> gmap string value -> result value)
    (gauss : nat -> R) (ints : nat -> Z) (n : nat) :
  forall (start : nat) (s s' : Notebook.session),
    Notebook.for_range (Notebook.training_step autodiff gauss ints) start n s = Ok s' ->
    exists printed : list (nat * value),
      Notebook.stdout s' = Notebook.stdout s ++ printed /\
      List.map fst printed
      = List.filter (fun i => (i mod 100 =? 0)%nat) (seq start n) /\
      Forall (fun line =>
                exists (k : nat) (sk : Notebook.session) (st' : gmap string value) (r : R),
                  line.1 = (start + k)%nat /\
                  Notebook.for_range (Notebook.training_step autodiff gauss ints) start k s
                  = Ok sk /\
                  Notebook.train_fn autodiff
                    [Notebook.X_batch gauss; floatX (Notebook.y_batch ints)] (Notebook.vars sk)
                  = Ok (line.2, st') /\
                  line.2 = mk [] [r])
             printed.
Proof.
  induction n as [|n IH]; intros start s s' H.
  - cbn in H. inversion H; subst s'. exists []. rewrite app_nil_r. repeat split. constructor.
  - cbn [Notebook.for_range] in H.
    destruct (Notebook.training_step autodiff gauss ints start s) as [s1|e] eqn:Hstep;
      run_result in H; [|discriminate].
    destruct (IH (Datatypes.S start) s1 s' H) as (printed & Hout & Hidx & Hlines).
    assert (Hlater :
      Forall (fun line =>
                exists (k : nat) (sk : Notebook.session) (st' : gmap string value) (r : R),
                  line.1 = (start + k)%nat /\
                  Notebook.for_range (Notebook.training_step autodiff gauss ints) start k s
                  = Ok sk /\
                  Notebook.train_fn autodiff
                    [Notebook.X_batch gauss; floatX (Notebook.y_batch ints)] (Notebook.vars sk)
                  = Ok (line.2, st') /\
                  line.2 = mk [] [r])
             printed).
    { apply (Forall_impl _ _ _ Hlines). intros line (k & sk & st' & r & Hk & Hrun & Hcall & Hr).
      exists (Datatypes.S k), sk, st', r. split; [lia|]. split; [|split; assumption].
      cbn [Notebook.for_range]. rewrite Hstep. run_result. exact Hrun. }
    clear Hlines.
    unfold Notebook.training_step in Hstep.
    cbn [seq List.filter].
    set (go := (start mod 100 =? 0)%nat) in *. clearbody go.
    destruct (Notebook.train_fn autodiff
                [Notebook.X_batch gauss; floatX (Notebook.y_batch ints)] (Notebook.vars s))
      as [[l st1]|e] eqn:Hcall; run_result in Hstep; [|discriminate].
    injection Hstep as <-. cbn [Notebook.stdout fst snd] in Hout.
    destruct go.
    + exists ((start, l) :: printed). rewrite Hout, <- app_assoc. split; [reflexivity|].
      split; [cbn [List.map fst]; rewrite Hidx; reflexivity|].
      constructor; [|exact Hlater]. cbn [fst snd].
      destruct (train_fn_inv autodiff _ _ _ _ Hcall) as (feed & _ & _ & _ & Hl & _).
      destruct (eval_loss_scalar autodiff feed _ l Hl) as [r Hr].
      exists 0%nat, s, st1, r. split; [lia|]. split; [reflexivity|].
      split; [exact Hcall | exact Hr].
    + exists printed. split; [exact Hout|]. split; [exact Hidx | exact Hlater].
Qed.

(** X10. What the training loop prints: a loop of [n] turns that ends
    without an exception adds to the output one line for each turn whose
    number is a multiple of 100, in order, and nothing else.  The line of
    turn [i] carries the loss that the call of [train_fn] of that turn
    returned, on the variables as the [i] turns before it left them, and
    that loss is one number.  For the 1000 turns of the notebook these are
    the ten turns 0, 100, ..., 900. *)
Theorem training_loop_prints_every_hundredth_turn
    (autodiff : tensor -> tensor -> gmap string value -> gmap string value -> result value)
    (gauss : nat -> R) (ints : nat -> Z) :
  (forall (n : nat) (s s' : Notebook.session),
      Notebook.for_range (Notebook.training_step autodiff gauss ints) 0 n s = Ok s' ->
      exists printed : list (nat * value),
        Notebook.stdout s' = Notebook.stdout s ++ printed /\
        List.map fst printed = List.filter (fun i => (i mod 100 =? 0)%nat) (seq 0 n) /\
        Forall (fun line =>
                  exists (si : Notebook.session) (st' : gmap string value) (r : R),
                    Notebook.for_range (Notebook.training_step autodiff gauss ints)
                      0 line.1 s = Ok si /\
                    Notebook.train_fn autodiff
                      [Notebook.X_batch gauss; floatX (Notebook.y_batch ints)]
                      (Notebook.vars si) = Ok (line.2, st') /\
                    line.2 = mk [] [r])
               printed) /\
  (forall s s' : Notebook.session,
      Notebook.training_loop autodiff gauss ints s = Ok s' ->
      exists printed : list (nat * value),
        Notebook.stdout s' = Notebook.stdout s ++ printed /\
        List.map fst printed = [0; 100; 200; 300; 400; 500; 600; 700; 800; 900]%nat /\
        Forall (fun line =>
                  exists (si : Notebook.session) (st' : gmap string value) (r : R),
                    Notebook.for_range (Notebook.training_step autodiff gauss ints)
                      0 line.1 s = Ok si /\
                    Notebook.train_fn autodiff
                      [Notebook.X_batch gauss; floatX (Notebook.y_batch ints)]
                      (Notebook.vars si) = Ok (line.2, st') /\
                    line.2 = mk [] [r])
               printed).
Proof.
  assert (Hgen : forall (n : nat) (s s' : Notebook.session),
      Notebook.for_range (Notebook.training_step autodiff gauss ints) 0 n s = Ok s' ->
      exists printed : list (nat * value),
        Notebook.stdout s' = Notebook.stdout s ++ printed /\
        List.map fst printed = List.filter (fun i => (i mod 100 =? 0)%nat) (seq 0 n) /\
        Forall (fun line =>
                  exists (si : Notebook.session) (st' : gmap string value) (r : R),
                    Notebook.for_range (Notebook.training_step autodiff gauss ints)
                      0 line.1 s = Ok si /\
                    Notebook.train_fn autodiff
                      [Notebook.X_batch gauss; floatX (Notebook.y_batch ints)]
                      (Notebook.vars si) = Ok (line.2, st') /\
                    line.2 = mk [] [r])
               printed).
  { intros n s s' H.
    destruct (for_range_training_stdout autodiff gauss ints n 0 s s' H)
      as (printed & Hout & Hidx & Hlines).
    exists printed. split; [exact Hout|]. split; [exact Hidx|].
    apply (Forall_impl _ _ _ Hlines). intros line (k & sk & st' & r & Hk & Hrun & Hcall & Hr).
    exists sk, st', r. rewrite Hk. cbn [Nat.add]. repeat split; assumption. }
  split; [exact Hgen|].
  intros s s' H. exact (Hgen 1000%nat s s' H).
Qed.

Lemma training_loop_prints_every_hundredth_turn_witness :
  exists (s' : Notebook.session) (printed : list (nat * value)),
    Notebook.training_loop Sample.flat_gradient Sample.gauss Sample.ints
      (Notebook.Session Sample.store []) = Ok s' /\
    Notebook.stdout s' = printed /\
    List.map fst printed = [0; 100; 200; 300; 400; 500; 600; 700; 800; 900]%nat.
Proof.
  destruct (for_range_training_total Sample.flat_gradient Sample.gauss Sample.ints 1000
              flat_gradients_like_params 0 (Notebook.Session Sample.store [])
              (initial_store_shapes Sample.gauss)) as (s' & Hloop & _).
  destruct (proj2 (training_loop_prints_every_hundredth_turn
                     Sample.flat_gradient Sample.gauss Sample.ints)
              (Notebook.Session Sample.store []) s' Hloop) as (printed & Hout & Hidx & _).
  exists s', printed. split; [exact Hloop|]. split; [exact Hout | exact Hidx].
Defined.

(** *** The accuracy *)

(** X11. On the labels the notebook generates the accuracy is always a
    number: whatever the random draws, [y_batch] holds sixteen labels that
    are 0 or 1, and against any (16,1) array of predictions the accuracy is
    [k/16*100], [k] being the number of positions (at most 16) where the
    thresholded prediction agrees with the label; it is never [nan]. *)
Theorem accuracy_on_generated_labels
    (ints : nat -> Z) (predictions : ndarray Q) :
  shape predictions = [16%nat; 1%nat] -> wf predictions ->
  Forall binary (data (Notebook.y_batch ints)) /\
  length (data (Notebook.y_batch ints)) = 16%nat /\
  (agreements (Notebook.y_batch ints) predictions <= 16)%nat /\
  Notebook.accuracy (Notebook.y_batch ints) predictions
  = Some (Finite ((Z.of_nat (agreements (Notebook.y_batch ints) predictions) # 16) * 100)).
Proof.
  intros Hs Hwf. unfold wf in Hwf. rewrite Hs in Hwf.
  split; [apply y_batch_binary|]. split; [reflexivity|]. split.
  - apply (agreements_le (Notebook.y_batch ints) predictions).
  - apply (accuracy_value (Notebook.y_batch ints) predictions 15).
    + rewrite Hs. reflexivity.
    + reflexivity.
    + exact Hwf.
    + apply y_batch_binary.
Qed.

Lemma accuracy_on_generated_labels_witness :
  Notebook.accuracy Sample.y_batch (full [16%nat; 1%nat] (3 # 4))
  = Some (Finite ((Z.of_nat (agreements Sample.y_batch (full [16%nat; 1%nat] (3 # 4))) # 16)
                  * 100)).
Proof.
  apply (accuracy_on_generated_labels Sample.ints (full [16%nat; 1%nat] (3 # 4)));
    reflexivity.
Defined.

Lemma filter_all {A} (f : A -> bool) (l : list A) :
  length (List.filter f l) = length l <-> Forall (fun a => f a = true) l.
Proof.
  induction l as [|a l IH]; [split; [constructor | reflexivity]|].
  cbn [List.filter]. destruct (f a) eqn:E; cbn [length].
  - split.
    + intros H. constructor; [exact E | apply IH; lia].
    + intros H. inversion H; subst. f_equal. apply IH. assumption.
  - pose proof (List.filter_length_le f l) as Hfl. split; [lia|].
    intros H. inversion H; subst. congruence.
Qed.

Lemma filter_none {A} (f : A -> bool) (l : list A) :
  length (List.filter f l) = 0%nat <-> Forall (fun a => f a = false) l.
Proof.
  induction l as [|a l IH]; [split; [constructor | reflexivity]|].
  cbn [List.filter]. destruct (f a) eqn:E; cbn [length].
  - split; [discriminate|]. intros H. inversion H; subst. congruence.
  - rewrite IH. split.
    + intros H. constructor; assumption.
    + intros H. inversion H; assumption.
Qed.

(** X12. Full marks and none: for 0/1 labels and predictions of the same
    shape with at least one element, the accuracy is 100 exactly when the
    thresholded prediction agrees with the label at every position, and 0
    exactly when it agrees at none. *)
Theorem accuracy_extremes
    (y_batch : ndarray Z) (predictions : ndarray Q) :
  shape y_batch = shape predictions -> wf y_batch -> wf predictions ->
  numel (shape y_batch) <> 0%nat ->
  Forall binary (data y_batch) ->
  exists q : Q,
    Notebook.accuracy y_batch predictions = Some (Finite q) /\
    ((q == 100)%Q <->
     Forall (fun lp => agrees lp.1 lp.2 = true) (zip (data y_batch) (data predictions))) /\
    ((q == 0)%Q <->
     Forall (fun lp => agrees lp.1 lp.2 = false) (zip (data y_batch) (data predictions))).
Proof.
  unfold wf. intros Hs Hwy Hwp Hne Hbin.
  destruct (numel (shape y_batch)) as [|n] eqn:En; [contradiction|].
  rewrite <- Hs, En in Hwp.
  eexists. split; [apply (accuracy_value y_batch predictions n Hs Hwy Hwp Hbin)|].
  assert (Hlen : length (zip (data y_batch) (data predictions)) = Datatypes.S n).
  { rewrite length_zip. lia. }
  pose proof (agreements_le y_batch predictions) as Hle. rewrite Hwy in Hle.
  unfold agreements in *.
  set (a := length (List.filter (fun lp : Z * Q => agrees lp.1 lp.2)
                                (zip (data y_batch) (data predictions)))) in *.
  split.
  - rewrite <- (filter_all (fun lp : Z * Q => agrees lp.1 lp.2)). fold a. rewrite Hlen.
    unfold Qeq, Qmult. cbn [Qnum Qden]. rewrite Pos.mul_1_r, Zpos_P_of_succ_nat. lia.
  - rewrite <- (filter_none (fun lp : Z * Q => agrees lp.1 lp.2)). fold a.
    unfold Qeq, Qmult. cbn [Qnum Qden]. lia.
Qed.

Lemma accuracy_extremes_witness :
  exists q : Q,
    Notebook.accuracy Sample.labels4 Sample.probabilities4 = Some (Finite q) /\
    ((q == 100)%Q <->
     Forall (fun lp => agrees lp.1 lp.2 = true)
            (zip (data Sample.labels4) (data Sample.probabilities4))) /\
    ((q == 0)%Q <->
     Forall (fun lp => agrees lp.1 lp.2 = false)
            (zip (data Sample.labels4) (data Sample.probabilities4))).
Proof.
  apply (accuracy_extremes Sample.labels4 Sample.probabilities4).
  - reflexivity.
  - reflexivity.
  - reflexivity.
  - discriminate.
  - repeat constructor; (left; reflexivity) || (right; reflexivity).
Defined.

(** *** Rows of a batch, and training again *)

Lemma affine_of_row (X w bv : value) (i : nat) :
  affine (mk [1%nat; 5%nat] (firstn 5 (skipn (i * 5) (data X)))) w bv 0 = affine X w bv i.
Proof.
  unfold affine, item2. cbn [data]. f_equal. f_equal.
  apply List.map_ext_in. intros j Hj. apply in_seq in Hj.
  rewrite nth_firstn, nth_skipn.
  destruct (0 * 5 + j <? 5)%nat eqn:E; [reflexivity|].
  apply Nat.ltb_ge in E. lia.
Qed.

(** X13. A prediction depends on its own row only: the probability that
    [predict] gives for row [i] of a batch is the one it gives for that row
    presented alone, as a batch of shape (1,5). *)
Theorem prediction_of_a_row_alone
    (autodiff : tensor -> tensor -> gmap string value -> gmap string value -> result value)
    (X w bv : value) (st : gmap string value) (N i : nat) :
  shape X = [N; 5%nat] ->
  st !! "W" = Some w -> shape w = [5%nat; 1%nat] ->
  st !! "b" = Some bv -> shape bv = [1%nat] -> wf bv ->
  (i < N)%nat ->
  exists (p : value) (v : R),
    Notebook.predict autodiff [X] st = Ok (p, st) /\
    nth i (data p) 0%R = v /\
    Notebook.predict autodiff [mk [1%nat; 5%nat] (firstn 5 (skipn (i * 5) (data X)))] st
    = Ok (mk [1%nat; 1%nat] [v], st).
Proof.
  intros HsX HW Hsw Hb Hsb Hwb Hi.
  eexists. exists (sigmoid (affine X w bv i)).
  split; [apply (predict_value autodiff X w bv st N HsX HW Hsw Hb Hsb Hwb)|]. split.
  - cbn [data].
    rewrite (nth_indep _ 0%R (sigmoid (affine X w bv 0)))
      by (rewrite length_map, length_seq; exact Hi).
    rewrite (map_nth (fun i => sigmoid (affine X w bv i)) (seq 0 N) 0%nat i).
    rewrite seq_nth by exact Hi. reflexivity.
  - rewrite (predict_value autodiff
               (mk [1%nat; 5%nat] (firstn 5 (skipn (i * 5) (data X))))
               w bv st 1 eq_refl HW Hsw Hb Hsb Hwb).
    cbn [seq List.map]. rewrite affine_of_row. reflexivity.
Qed.

Lemma prediction_of_a_row_alone_witness :
  exists (p : value) (v : R),
    Notebook.predict Sample.flat_gradient [Sample.X_batch] Sample.store = Ok (p, Sample.store) /\
    nth 3 (data p) 0%R = v /\
    Notebook.predict Sample.flat_gradient
      [mk [1%nat; 5%nat] (firstn 5 (skipn (3 * 5) (data Sample.X_batch)))] Sample.store
    = Ok (mk [1%nat; 1%nat] [v], Sample.store).
Proof.
  apply (prediction_of_a_row_alone Sample.flat_gradient Sample.X_batch
           (Notebook.W_init Sample.gauss) Notebook.b_init Sample.store 16 3);
    try reflexivity.
  apply Nat.ltb_lt. reflexivity.
Defined.

Lemma training_step_vars
    (autodiff : tensor -> tensor -> gmap string value -> gmap string value -> result value)
    (gauss : nat -> R) (ints : nat -> Z) (a c : nat) (s t s1 : Notebook.session) :
  Notebook.vars t = Notebook.vars s ->
  Notebook.training_step autodiff gauss ints a s = Ok s1 ->
  exists t1,
    Notebook.training_step autodiff gauss ints c t = Ok t1 /\
    Notebook.vars t1 = Notebook.vars s1.
Proof.
  unfold Notebook.training_step. intros -> H.
  destruct (Notebook.train_fn autodiff
              [Notebook.X_batch gauss; floatX (Notebook.y_batch ints)] (Notebook.vars s))
    as [[l st1]|e]; run_result in H; [|discriminate].
  injection H as <-. run_result. eexists. split; reflexivity.
Qed.

Lemma for_range_training_vars
    (autodiff : tensor -> tensor -> gmap string value -> gmap string value -> result value)
    (gauss : nat -> R) (ints : nat -> Z) (n : nat) :
  forall (a c : nat) (s t s1 : Notebook.session),
    Notebook.vars t = Notebook.vars s ->
    Notebook.for_range (Notebook.training_step autodiff gauss ints) a n s = Ok s1 ->
    exists t1,
      Notebook.for_range (Notebook.training_step autodiff gauss ints) c n t = Ok t1 /\
      Notebook.vars t1 = Notebook.vars s1.
Proof.
  induction n as [|n IH]; intros a c s t s1 Hv H.
  - cbn in H. inversion H; subst s1. exists t. split; [reflexivity | exact Hv].
  - cbn [Notebook.for_range] in *.
    destruct (Notebook.training_step autodiff gauss ints a s) as [s'|e] eqn:Hstep;
      run_result in H; [|discriminate].
    destruct (training_step_vars autodiff gauss ints a c s t s' Hv Hstep) as (t' & Ht & Hv').
    rewrite Ht. run_result.
    apply (IH (Datatypes.S a) (Datatypes.S c) s' t' s1 Hv' H).
Qed.

Lemma for_range_app {S : Type} (body : nat -> S -> result S) (n m : nat) :
  forall (start : nat) (s : S),
    Notebook.for_range body start (n + m) s
    = (s1 ← Notebook.for_range body start n s; Notebook.for_range body (start + n) m s1).
Proof.
  induction n as [|n IH]; intros start s.
  - cbn. rewrite Nat.add_0_r. reflexivity.
  - cbn [Nat.add Notebook.for_range]. destruct (body start s) as [s1|e]; run_result;
      [|reflexivity].
    rewrite IH. replace (Datatypes.S start + n)%nat with (start + Datatypes.S n)%nat by lia.
    reflexivity.
Qed.

(** X14. Running the training cell again goes on from where the first run
    ended: the variables keep their trained values between runs, so two
    runs of the loop leave [W] and [b] as one loop of 2000 turns leaves
    them (more generally, [n] turns and then [m] turns as [n + m] turns);
    only the turn numbers that are printed start again at 0. *)
Theorem training_again_continues
    (autodiff : tensor -> tensor -> gmap string value -> gmap string value -> result value)
    (gauss : nat -> R) (ints : nat -> Z) :
  (forall (n m : nat) (s s1 s2 : Notebook.session),
      Notebook.for_range (Notebook.training_step autodiff gauss ints) 0 n s = Ok s1 ->
      Notebook.for_range (Notebook.training_step autodiff gauss ints) 0 m s1 = Ok s2 ->
      exists s',
        Notebook.for_range (Notebook.training_step autodiff gauss ints) 0 (n + m) s = Ok s' /\
        Notebook.vars s' = Notebook.vars s2) /\
  (forall s s1 s2 : Notebook.session,
      Notebook.training_loop autodiff gauss ints s = Ok s1 ->
      Notebook.training_loop autodiff gauss ints s1 = Ok s2 ->
      exists s',
        Notebook.for_range (Notebook.training_step autodiff gauss ints) 0 2000 s = Ok s' /\
        Notebook.vars s' = Notebook.vars s2).
Proof.
  assert (Hgen : forall (n m : nat) (s s1 s2 : Notebook.session),
      Notebook.for_range (Notebook.training_step autodiff gauss ints) 0 n s = Ok s1 ->
      Notebook.for_range (Notebook.training_step autodiff gauss ints) 0 m s1 = Ok s2 ->
      exists s',
        Notebook.for_range (Notebook.training_step autodiff gauss ints) 0 (n + m) s = Ok s' /\
        Notebook.vars s' = Notebook.vars s2).
  { intros n m s s1 s2 H1 H2. rewrite for_range_app, H1. run_result.
    apply (for_range_training_vars autodiff gauss ints m 0 (0 + n) s1 s1 s2 eq_refl H2). }
  split; [exact Hgen|].
  intros s s1 s2 H1 H2. exact (Hgen 1000%nat 1000%nat s s1 s2 H1 H2).
Qed.

Lemma training_again_continues_witness :
  exists s1 s2 s' : Notebook.session,
    Notebook.training_loop Sample.flat_gradient Sample.gauss Sample.ints
      (Notebook.Session Sample.store []) = Ok s1 /\
    Notebook.training_loop Sample.flat_gradient Sample.gauss Sample.ints s1 = Ok s2 /\
    Notebook.for_range (Notebook.training_step Sample.flat_gradient Sample.gauss Sample.ints)
      0 2000 (Notebook.Session Sample.store []) = Ok s' /\
    Notebook.vars s' = Notebook.vars s2.
Proof.
  destruct (for_range_training_total Sample.flat_gradient Sample.gauss Sample.ints 1000
              flat_gradients_like_params 0 (Notebook.Session Sample.store [])
              (initial_store_shapes Sample.gauss)) as (s1 & H1 & Hs1).
  destruct (for_range_training_total Sample.flat_gradient Sample.gauss Sample.ints 1000
              flat_gradients_like_params 0 s1 Hs1) as (s2 & H2 & _).
  destruct (proj2 (training_again_continues Sample.flat_gradient Sample.gauss Sample.ints)
              _ s1 s2 H1 H2) as (s' & H & Hv).
  exists s1, s2, s'. repeat split; assumption.
Defined.
